(** * Trick Variable Server Connection: the command encoder and its transport

    A shallow embedding of [src/trick_variable_server_connection.c].

    - [CInt]    : the machine integers of an LP64 platform ([size_t], [int],
                  [ssize_t]) as [Z] with the wrap-around written out.
    - [CString] : [char] arrays and NUL-terminated strings as [list byte],
                  with [strlen], [strncpy], [strncat] and [snprintf] acting
                  on array contents.
    - [OS]      : the socket interface the library calls into ([send],
                  [recv], [shutdown]) as an environment of answers plus a
                  trace of the calls made; a small state monad threads the
                  trace.
    - [TVS]     : the functions of the library, one definition per C
                  function, under the source's names.
    - [Wire]    : the wire templates of the protocol table, written from
                  the specification, to compare the code against. *)

From Stdlib.Strings Require Import Byte String.
From Stdlib Require Import ZArith List Lia Bool.
Import ListNotations.
Open Scope Z_scope.

(* ================================================================= *)
(** ** Machine integers *)

Module CInt.

(** [size_t] is unsigned, 64 bits wide. *)
Definition SIZE_MOD : Z := 18446744073709551616.

Definition size_t (z : Z) : Z := z mod SIZE_MOD.

Definition size_add (a b : Z) : Z := size_t (a + b).
Definition size_sub (a b : Z) : Z := size_t (a - b).

(** [int] is signed, 32 bits wide. *)
Definition INT_MAX : Z := 2147483647.
Definition INT_MIN : Z := -2147483648.

Definition in_int (z : Z) : Prop := INT_MIN <= z <= INT_MAX.

(** Conversion of a wider integer ([ssize_t]) to [int], as done by
    [return send(...)] and [return recv(...)] in a function whose
    result type is [int]: the value is reduced modulo 2^32 into the
    range of [int]. *)
Definition to_int (z : Z) : Z := (z + 2147483648) mod 4294967296 - 2147483648.

End CInt.

(* ================================================================= *)
(** ** Character arrays and C strings *)

Module CString.
Import CInt.

(** The contents of a [char] array, or of the memory a [char*] points
    to.  A string ends at its first NUL byte; the end of the list acts
    as a terminator too, so a list without NUL is the string of all its
    bytes. *)
Definition chars := list byte.

Definition NUL : byte := x00.
Definition NEWLINE : byte := x0a.
Definition DQUOTE : byte := x22.

(** A string literal of the source. *)
Definition lit (s : string) : chars := list_byte_of_string s.

(** The characters of the string stored in [s]: everything before the
    first NUL. *)
Fixpoint cstr (s : chars) : chars :=
  match s with
  | [] => []
  | b :: r => if Byte.eqb b NUL then [] else b :: cstr r
  end.

(** [strlen(s)] *)
Definition strlen (s : chars) : Z := Z.of_nat (length (cstr s)).

(** [sizeof(a)] of a [char] array. *)
Definition sizeof (a : chars) : Z := Z.of_nat (length a).

(** [strncpy(dst, src, n)]: exactly [n] bytes of [dst] are written,
    the first [min (strlen src) n] characters of [src] and then NUL
    padding.  No NUL is written when [strlen src >= n]. *)
Definition strncpy (dst src : chars) (n : Z) : chars :=
  let k := Z.to_nat n in
  let body := firstn k (cstr src) in
  body ++ repeat NUL (k - length body) ++ skipn k dst.

(** [strncat(dst, src, n)]: at most [n] characters of [src] are written
    over the terminating NUL of [dst] and after it, followed by a NUL. *)
Definition strncat (dst src : chars) (n : Z) : chars :=
  let l := length (cstr dst) in
  let body := firstn (Z.to_nat n) (cstr src) in
  firstn l dst ++ body ++ [NUL] ++ skipn (l + length body + 1) dst.

(** [snprintf(dst, size, fmt, ...)] where [out] is the full text the
    conversion produces: at most [size - 1] characters of it are
    stored, followed by a NUL; the rest of [dst] is left as it was. *)
Definition snprintf (dst : chars) (size : Z) (out : chars) : chars :=
  let body := firstn (Z.to_nat (size - 1)) out in
  body ++ [NUL] ++ skipn (length body + 1) dst.

(** The decimal digit [d], for [0 <= d <= 9]. *)
Definition digit (d : Z) : byte :=
  match d with
  | 0 => x30 | 1 => x31 | 2 => x32 | 3 => x33 | 4 => x34
  | 5 => x35 | 6 => x36 | 7 => x37 | 8 => x38 | _ => x39
  end.

(** The decimal digits of [n >= 0], most significant first; [fuel]
    bounds their number. *)
Fixpoint udec (fuel : nat) (n : Z) : chars :=
  match fuel with
  | O => []
  | S f => (if n <? 10 then [] else udec f (n / 10)) ++ [digit (n mod 10)]
  end.

(** The text of the [%i] conversion of an [int]: a minus sign for a
    negative value, then at most ten digits. *)
Definition format_i (z : Z) : chars :=
  if z <? 0 then x2d :: udec 10 (- z) else udec 10 z.

End CString.

(* ================================================================= *)
(** ** The socket interface *)

Module OS.
Import CString.

(** The calls a program makes on socket descriptors.  [EvClose] is
    [close(2)] of the C library, which releases the descriptor. *)
Inductive event : Type :=
| EvSend (fd : Z) (buf : chars) (flags : Z)
| EvRecv (fd : Z) (len : Z) (flags : Z)
| EvShutdown (fd : Z) (how : Z)
| EvClose (fd : Z).

Definition trace := list event.

(** What one [recv] call comes back with, after its RETURN VALUE
    section as restated in the header of
    [receive_message_from_variable_server]: a message, an orderly
    shutdown of the peer with nothing left to read, or an error. *)
Inductive recv_outcome : Type :=
| RecvMessage (data : chars)
| RecvShutdown
| RecvError (errno : Z).

(** The [ssize_t] that [recv] returns for an outcome. *)
Definition recv_ret (o : recv_outcome) : Z :=
  match o with
  | RecvMessage data => Z.of_nat (length data)
  | RecvShutdown => 0
  | RecvError _ => -1
  end.

(** Everything the library does not control: the answers of the
    operating system, which may depend on the calls made so far, and
    the indeterminate contents of automatic arrays. *)
Record Env : Type := {
  os_send : trace -> Z -> chars -> Z -> Z;
  os_recv : trace -> Z -> Z -> Z -> recv_outcome;
  os_shutdown : trace -> Z -> Z -> Z;
  stack : chars
}.

(** Computations that call into the operating system. *)
Definition IO (A : Type) : Type := Env -> trace -> A * trace.

Definition ret {A} (a : A) : IO A := fun _ w => (a, w).

Definition bind {A B} (m : IO A) (k : A -> IO B) : IO B :=
  fun env w => let (a, w') := m env w in k a env w'.

(** An automatic array [char a[n]]: [n] bytes of whatever the stack
    holds. *)
Definition fresh (env : Env) (n : nat) : chars :=
  firstn n (stack env ++ repeat NUL n).

Definition auto_array (n : nat) : IO chars :=
  fun env w => (fresh env n, w).

(** [send(fd, buf, len, flags)]: the first [len] bytes of [buf] are
    handed to the transport. *)
Definition send (fd : Z) (buf : chars) (len : Z) (flags : Z) : IO Z :=
  fun env w =>
    let bytes := firstn (Z.to_nat len) buf in
    (os_send env w fd bytes flags, w ++ [EvSend fd bytes flags]).

(** [recv(fd, buf, len, flags)]: returns the count and the new
    contents of [buf]. *)
Definition recv (fd : Z) (buf : chars) (len : Z) (flags : Z) : IO (Z * chars) :=
  fun env w =>
    let o := os_recv env w fd len flags in
    let buf' := match o with
                | RecvMessage data => data ++ skipn (length data) buf
                | _ => buf
                end in
    ((recv_ret o, buf'), w ++ [EvRecv fd len flags]).

(** [shutdown(fd, how)] *)
Definition shutdown (fd : Z) (how : Z) : IO Z :=
  fun env w => (os_shutdown env w fd how, w ++ [EvShutdown fd how]).

Definition SHUT_RDWR : Z := 2.

(** The events a computation adds to a trace. *)
Definition is_send (e : event) : bool :=
  match e with EvSend _ _ _ => true | _ => false end.

Definition is_close (e : event) : bool :=
  match e with EvClose _ => true | _ => false end.

Definition sends (w : trace) : trace := filter is_send w.

Definition teardowns (w : trace) : nat := length (filter is_close w).

End OS.

Declare Scope io_scope.
Delimit Scope io_scope with io.
Notation "x <- m ;; k" := (OS.bind m (fun x => k))
  (at level 61, m at next level, right associativity) : io_scope.

(* ================================================================= *)
(** ** The library *)

Module TVS.
Import CInt CString OS.
Local Open Scope io_scope.

(** [send_command_to_variable_server]: the command with a newline
    appended, sent in one [send]. *)
Definition send_command_to_variable_server (socket : Z) (command : chars) : IO Z :=
  cmd <- auto_array 512 ;;
  if sizeof cmd <? size_add (strlen command) 2 then
    ret (-1)
  else
    let cmd := strncpy cmd command (sizeof cmd) in
    let cmd := strncat cmd [NEWLINE] (size_sub (size_sub (sizeof cmd) (strlen cmd)) 1) in
    r <- send socket cmd (strlen cmd) 0 ;;
    ret (to_int r).

(** The shape shared by every wrapper: [-1] when the send reports an
    error, [0] otherwise. *)
Definition set_ascii (socket : Z) : IO Z :=
  r <- send_command_to_variable_server socket (lit "trick.var_ascii()") ;;
  if r <? 0 then ret (-1) else ret 0.

Definition set_binary (socket : Z) : IO Z :=
  r <- send_command_to_variable_server socket (lit "trick.var_binary()") ;;
  if r <? 0 then ret (-1) else ret 0.

Definition set_binary_no_names (socket : Z) : IO Z :=
  r <- send_command_to_variable_server socket (lit "trick.var_binary_nonames()") ;;
  if r <? 0 then ret (-1) else ret 0.

Definition set_sync (socket : Z) : IO Z :=
  r <- send_command_to_variable_server socket (lit "trick.var_sync(1)") ;;
  if r <? 0 then ret (-1) else ret 0.

Definition pause (socket : Z) : IO Z :=
  r <- send_command_to_variable_server socket (lit "trick.var_pause()") ;;
  if r <? 0 then ret (-1) else ret 0.

Definition unpause (socket : Z) : IO Z :=
  r <- send_command_to_variable_server socket (lit "trick.var_unpause()") ;;
  if r <? 0 then ret (-1) else ret 0.

Definition add_variable_to_server (socket : Z) (variable_name : chars) : IO Z :=
  cmd <- auto_array 512 ;;
  let prefix := lit "trick.var_add(" ++ [DQUOTE] in
  let suffix := [DQUOTE] ++ lit ")" in
  if sizeof cmd <?
     size_add (size_add (size_add (strlen prefix) (strlen variable_name))
                        (strlen suffix)) 1
  then ret (-1)
  else
    let cmd := strncpy cmd prefix (sizeof cmd) in
    let cmd := strncat cmd variable_name (size_sub (size_sub (sizeof cmd) (strlen cmd)) 1) in
    let cmd := strncat cmd suffix (size_sub (size_sub (sizeof cmd) (strlen cmd)) 1) in
    r <- send_command_to_variable_server socket cmd ;;
    if r <? 0 then ret (-1) else ret 0.

Definition add_variable_to_sever_with_units (socket : Z) (variable_name units : chars)
  : IO Z :=
  cmd <- auto_array 512 ;;
  let prefix := lit "trick.var_add(" ++ [DQUOTE] in
  let infix := [DQUOTE] ++ lit ", " ++ [DQUOTE] in
  let suffix := [DQUOTE] ++ lit ")" in
  if sizeof cmd <?
     size_add (size_add (size_add (size_add (size_add (strlen prefix)
                                                      (strlen variable_name))
                                            (strlen infix))
                                  (strlen units))
                        (strlen suffix)) 1
  then ret (-1)
  else
    let cmd := strncpy cmd prefix (sizeof cmd) in
    let cmd := strncat cmd variable_name (size_sub (size_sub (sizeof cmd) (strlen cmd)) 1) in
    let cmd := strncat cmd infix (size_sub (size_sub (sizeof cmd) (strlen cmd)) 1) in
    let cmd := strncat cmd units (size_sub (size_sub (sizeof cmd) (strlen cmd)) 1) in
    let cmd := strncat cmd suffix (size_sub (size_sub (sizeof cmd) (strlen cmd)) 1) in
    r <- send_command_to_variable_server socket cmd ;;
    if r <? 0 then ret (-1) else ret 0.

Definition remove_variable_from_server (socket : Z) (variable_name : chars) : IO Z :=
  cmd <- auto_array 512 ;;
  let prefix := lit "trick.var_remove(" ++ [DQUOTE] in
  let suffix := [DQUOTE] ++ lit ")" in
  if sizeof cmd <?
     size_add (size_add (size_add (strlen prefix) (strlen variable_name))
                        (strlen suffix)) 1
  then ret (-1)
  else
    let cmd := strncpy cmd prefix (sizeof cmd) in
    let cmd := strncat cmd variable_name (size_sub (size_sub (sizeof cmd) (strlen cmd)) 1) in
    let cmd := strncat cmd suffix (size_sub (size_sub (sizeof cmd) (strlen cmd)) 1) in
    r <- send_command_to_variable_server socket cmd ;;
    if r <? 0 then ret (-1) else ret 0.

Definition clear (socket : Z) : IO Z :=
  r <- send_command_to_variable_server socket (lit "trick.var_clear()") ;;
  if r <? 0 then ret (-1) else ret 0.

(** [set_cycle(socket, period)].  The [double] itself stays outside
    the embedding: [period_lf] is the text its [%lf] conversion
    produces, which [snprintf] then stores in [per]. *)
Definition set_cycle (socket : Z) (period_lf : chars) : IO Z :=
  cmd <- auto_array 512 ;;
  let prefix := lit "trick.var_cycle(" in
  per <- auto_array 128 ;;
  let suffix := lit ")" in
  let per := snprintf per 128 period_lf in
  if sizeof cmd <?
     size_add (size_add (size_add (strlen prefix) (strlen per)) (strlen suffix)) 1
  then ret (-1)
  else
    let cmd := strncpy cmd prefix (sizeof cmd) in
    let cmd := strncat cmd per (size_sub (size_sub (sizeof cmd) (strlen cmd)) 1) in
    let cmd := strncat cmd suffix (size_sub (size_sub (sizeof cmd) (strlen cmd)) 1) in
    r <- send_command_to_variable_server socket cmd ;;
    if r <? 0 then ret (-1) else ret 0.

Definition set_copy_mode (socket : Z) (mode : Z) : IO Z :=
  cmd <- auto_array 512 ;;
  let prefix := lit "trick.var_set_copy_mode(" in
  mod_ <- auto_array 4 ;;
  let suffix := lit ")" in
  let mod_ := snprintf mod_ 4 (format_i mode) in
  if sizeof cmd <?
     size_add (size_add (size_add (strlen prefix) (strlen mod_)) (strlen suffix)) 1
  then ret (-1)
  else
    let cmd := strncpy cmd prefix (sizeof cmd) in
    let cmd := strncat cmd mod_ (size_sub (size_sub (sizeof cmd) (strlen cmd)) 1) in
    let cmd := strncat cmd suffix (size_sub (size_sub (sizeof cmd) (strlen cmd)) 1) in
    r <- send_command_to_variable_server socket cmd ;;
    if r <? 0 then ret (-1) else ret 0.

Definition poll (socket : Z) : IO Z :=
  r <- send_command_to_variable_server socket (lit "trick.var_send()") ;;
  if r <? 0 then ret (-1) else ret 0.

Definition run (socket : Z) : IO Z :=
  r <- send_command_to_variable_server socket (lit "trick.exec_run()") ;;
  if r <? 0 then ret (-1) else ret 0.

Definition freeze (socket : Z) : IO Z :=
  r <- send_command_to_variable_server socket (lit "trick.exec_freeze()") ;;
  if r <? 0 then ret (-1) else ret 0.

(** [close].  Inside the body, the name [close] is the function being
    defined (the header declares it and no other [close] is in scope),
    so the call in the [else] branch is a recursive one.  [depth]
    bounds the nesting of calls; [None] means the bound was reached
    before the outermost call returned. *)
Fixpoint close (depth : nat) (socket : Z) : IO (option Z) :=
  match depth with
  | O => ret None
  | S depth' =>
      r <- send_command_to_variable_server socket (lit "trick.var_exit()") ;;
      if r <? 0 then ret (Some (-1))
      else
        inner <- close depth' socket ;;
        match inner with
        | None => ret None
        | Some _ => ret (Some 0)
        end
  end.

(** The same function as a relation between the trace at the call, the
    value returned and the trace at the return; a call that does not
    return is related to nothing. *)
Inductive close_returns (env : Env) (socket : Z) : trace -> Z -> trace -> Prop :=
| close_send_failed w r w' :
    send_command_to_variable_server socket (lit "trick.var_exit()") env w = (r, w') ->
    r < 0 ->
    close_returns env socket w (-1) w'
| close_send_ok w r w' inner w'' :
    send_command_to_variable_server socket (lit "trick.var_exit()") env w = (r, w') ->
    0 <= r ->
    close_returns env socket w' inner w'' ->
    close_returns env socket w 0 w''.

Definition set_validate_addresses (socket : Z) (validate : Z) : IO Z :=
  cmd <- auto_array 256 ;;
  let prefix := lit "trick.var_validate_address(" in
  val <- auto_array 16 ;;
  let suffix := lit ")" in
  let val := if 0 <? validate then strncpy val (lit "True") 16
             else strncpy val (lit "False") 16 in
  if sizeof cmd <?
     size_add (size_add (size_add (strlen prefix) (strlen val)) (strlen suffix)) 1
  then ret (-1)
  else
    let cmd := strncpy cmd prefix (sizeof cmd) in
    let cmd := strncat cmd val (size_sub (size_sub (sizeof cmd) (strlen cmd)) 1) in
    let cmd := strncat cmd suffix (size_sub (size_sub (sizeof cmd) (strlen cmd)) 1) in
    r <- send_command_to_variable_server socket cmd ;;
    if r <? 0 then ret (-1) else ret 0.

Definition set_real_time (socket : Z) (enabled : Z) : IO Z :=
  cmd <- auto_array 256 ;;
  let prefix := lit "trick.real_time_" in
  enab <- auto_array 16 ;;
  let suffix := lit "()" in
  let enab := if 0 <? enabled then strncpy enab (lit "enable") 16
              else strncpy enab (lit "disable") 16 in
  if sizeof cmd <?
     size_add (size_add (size_add (strlen prefix) (strlen enab)) (strlen suffix)) 1
  then ret (-1)
  else
    let cmd := strncpy cmd prefix (sizeof cmd) in
    let cmd := strncat cmd enab (size_sub (size_sub (sizeof cmd) (strlen cmd)) 1) in
    let cmd := strncat cmd suffix (size_sub (size_sub (sizeof cmd) (strlen cmd)) 1) in
    r <- send_command_to_variable_server socket cmd ;;
    if r <? 0 then ret (-1) else ret 0.

Definition set_debug_level (socket : Z) (level : Z) : IO Z :=
  cmd <- auto_array 256 ;;
  let prefix := lit "trick.var_debug(" in
  lev <- auto_array 64 ;;
  let suffix := lit ")" in
  let lev := snprintf lev 64 (format_i level) in
  if sizeof cmd <?
     size_add (size_add (size_add (strlen prefix) (strlen lev)) (strlen suffix)) 1
  then ret (-1)
  else
    let cmd := strncpy cmd prefix (sizeof cmd) in
    let cmd := strncat cmd lev (size_sub (size_sub (sizeof cmd) (strlen cmd)) 1) in
    let cmd := strncat cmd suffix (size_sub (size_sub (sizeof cmd) (strlen cmd)) 1) in
    r <- send_command_to_variable_server socket cmd ;;
    if r <? 0 then ret (-1) else ret 0.

Definition set_client_tag (socket : Z) (tag : chars) : IO Z :=
  cmd <- auto_array 512 ;;
  let prefix := lit "trick.var_set_client_tag(" ++ [DQUOTE] in
  let suffix := [DQUOTE] ++ lit ")" in
  if sizeof cmd <?
     size_add (size_add (size_add (strlen prefix) (strlen tag)) (strlen suffix)) 1
  then ret (-1)
  else
    let cmd := strncpy cmd prefix (sizeof cmd) in
    let cmd := strncat cmd tag (size_sub (size_sub (sizeof cmd) (strlen cmd)) 1) in
    let cmd := strncat cmd suffix (size_sub (size_sub (sizeof cmd) (strlen cmd)) 1) in
    r <- send_command_to_variable_server socket cmd ;;
    if r <? 0 then ret (-1) else ret 0.

(** [receive_message_from_variable_server]: one [recv]; the result is
    the count converted to [int], with the new contents of the reply
    buffer. *)
Definition receive_message_from_variable_server
    (socket : Z) (server_reply : chars) (lenght : Z) (flags : Z) : IO (Z * chars) :=
  rb <- recv socket server_reply lenght flags ;;
  ret (to_int (fst rb), snd rb).

Definition socket_shutdown (socket : Z) : IO Z :=
  r <- shutdown socket SHUT_RDWR ;;
  ret (to_int r).

End TVS.

(* ================================================================= *)
(** ** The protocol table *)

Module Wire.
Import CInt CString OS.

(** The command-building operations with their arguments, as the C
    functions take them. *)
Inductive operation : Type :=
| SetAscii
| SetBinary
| SetBinaryNoNames
| SetSync
| Pause
| Unpause
| AddVariable (variable_name : chars)
| AddVariableWithUnits (variable_name units : chars)
| RemoveVariable (variable_name : chars)
| Clear
| SetCycle (period_lf : chars)
| SetCopyMode (mode : Z)
| Poll
| Run
| Freeze
| SetValidateAddresses (validate : Z)
| SetRealTime (enabled : Z)
| SetDebugLevel (level : Z)
| SetClientTag (tag : chars).

(** The C function behind each operation. *)
Definition perform (o : operation) (socket : Z) : IO Z :=
  match o with
  | SetAscii => TVS.set_ascii socket
  | SetBinary => TVS.set_binary socket
  | SetBinaryNoNames => TVS.set_binary_no_names socket
  | SetSync => TVS.set_sync socket
  | Pause => TVS.pause socket
  | Unpause => TVS.unpause socket
  | AddVariable n => TVS.add_variable_to_server socket n
  | AddVariableWithUnits n u => TVS.add_variable_to_sever_with_units socket n u
  | RemoveVariable n => TVS.remove_variable_from_server socket n
  | Clear => TVS.clear socket
  | SetCycle p => TVS.set_cycle socket p
  | SetCopyMode m => TVS.set_copy_mode socket m
  | Poll => TVS.poll socket
  | Run => TVS.run socket
  | Freeze => TVS.freeze socket
  | SetValidateAddresses v => TVS.set_validate_addresses socket v
  | SetRealTime e => TVS.set_real_time socket e
  | SetDebugLevel l => TVS.set_debug_level socket l
  | SetClientTag t => TVS.set_client_tag socket t
  end.

(** The namespace literal of the reference server. *)
Definition ns : chars := lit "trick".

Definition quoted (s : chars) : chars := [DQUOTE] ++ s ++ [DQUOTE].

(** The wire text of each operation as the protocol table documents
    it, with the arguments substituted in full.  An integer flag
    counts as true when it is positive, as the function headers say. *)
Definition template (o : operation) : chars :=
  match o with
  | SetAscii => ns ++ lit ".var_ascii()"
  | SetBinary => ns ++ lit ".var_binary()"
  | SetBinaryNoNames => ns ++ lit ".var_binary_nonames()"
  | SetSync => ns ++ lit ".var_sync(1)"
  | Pause => ns ++ lit ".var_pause()"
  | Unpause => ns ++ lit ".var_unpause()"
  | AddVariable n => ns ++ lit ".var_add(" ++ quoted (cstr n) ++ lit ")"
  | AddVariableWithUnits n u =>
      ns ++ lit ".var_add(" ++ quoted (cstr n) ++ lit ", " ++ quoted (cstr u) ++ lit ")"
  | RemoveVariable n => ns ++ lit ".var_remove(" ++ quoted (cstr n) ++ lit ")"
  | Clear => ns ++ lit ".var_clear()"
  | SetCycle p => ns ++ lit ".var_cycle(" ++ p ++ lit ")"
  | SetCopyMode m => ns ++ lit ".var_set_copy_mode(" ++ format_i m ++ lit ")"
  | Poll => ns ++ lit ".var_send()"
  | Run => ns ++ lit ".exec_run()"
  | Freeze => ns ++ lit ".exec_freeze()"
  | SetValidateAddresses v =>
      ns ++ lit ".var_validate_address(" ++ (if 0 <? v then lit "True" else lit "False")
         ++ lit ")"
  | SetRealTime e =>
      ns ++ lit ".real_time_" ++ (if 0 <? e then lit "enable" else lit "disable")
         ++ lit "()"
  | SetDebugLevel l => ns ++ lit ".var_debug(" ++ format_i l ++ lit ")"
  | SetClientTag t => ns ++ lit ".var_set_client_tag(" ++ quoted (cstr t) ++ lit ")"
  end.

Definition EXIT_LINE : chars := ns ++ lit ".var_exit()" ++ [NEWLINE].

(** The command bound of the specification: the size of [cmd]. *)
Definition MAX_COMMAND : Z := 512.

(** Strings live in memory: their lengths stay far below the range of
    [size_t].  The bound is 2^48, above the 2^47 bytes that user space
    spans on x86-64. *)
Definition STRING_MAX : Z := 281474976710656.

Definition in_memory (s : chars) : Prop := strlen s < STRING_MAX.

(** The longest text [%lf] yields for a [double]: a sign, 309 digits,
    the point and six decimals. *)
Definition LF_MAX : Z := 317.

(** The [%lf] text of the [double] 2^500.  The value is a power of
    two, so the conversion prints its 151 digits exactly, then the
    point and six zeros. *)
Definition lf_two_pow_500 : chars := udec 151 (2 ^ 500) ++ lit ".000000".

(** Arguments a C caller can pass: strings that fit in memory, [int]
    values in the range of [int], the [%lf] text of some [double]. *)
Definition well_formed (o : operation) : Prop :=
  match o with
  | AddVariable n | RemoveVariable n | SetClientTag n => in_memory n
  | AddVariableWithUnits n u => in_memory n /\ in_memory u
  | SetCycle p => cstr p = p /\ Z.of_nat (length p) <= LF_MAX
  | SetCopyMode z | SetValidateAddresses z | SetRealTime z | SetDebugLevel z => in_int z
  | _ => True
  end.

(** What the code puts between the prefix and the suffix for each
    operation: [snprintf] cuts the number text to the size of its
    array. *)
Definition assembled (o : operation) : chars :=
  match o with
  | SetCycle p => ns ++ lit ".var_cycle(" ++ firstn 127 p ++ lit ")"
  | SetCopyMode m => ns ++ lit ".var_set_copy_mode(" ++ firstn 3 (format_i m) ++ lit ")"
  | _ => template o
  end.

End Wire.

(* ================================================================= *)
(** ** Shapes shared by the functions, for the proofs *)

Module Shape.
Import CInt CString OS.
Local Open Scope io_scope.

(** The result of a wrapper for the result [r] of the send. *)
Definition status (r : Z) : Z := if r <? 0 then -1 else 0.

(** A wrapper around [send_command_to_variable_server]. *)
Definition wrapper (socket : Z) (command : chars) : IO Z :=
  r <- TVS.send_command_to_variable_server socket command ;;
  if r <? 0 then ret (-1) else ret 0.

(** The length check and the assembly of prefix, argument and suffix
    in the array [cmd]. *)
Definition build3 (socket : Z) (cmd prefix arg suffix : chars) : IO Z :=
  if sizeof cmd <?
     size_add (size_add (size_add (strlen prefix) (strlen arg)) (strlen suffix)) 1
  then ret (-1)
  else
    let cmd := strncpy cmd prefix (sizeof cmd) in
    let cmd := strncat cmd arg (size_sub (size_sub (sizeof cmd) (strlen cmd)) 1) in
    let cmd := strncat cmd suffix (size_sub (size_sub (sizeof cmd) (strlen cmd)) 1) in
    wrapper socket cmd.

(** The same with two arguments and an infix between them. *)
Definition build5 (socket : Z) (cmd prefix arg1 infix arg2 suffix : chars) : IO Z :=
  if sizeof cmd <?
     size_add (size_add (size_add (size_add (size_add (strlen prefix) (strlen arg1))
                                            (strlen infix))
                                  (strlen arg2))
                        (strlen suffix)) 1
  then ret (-1)
  else
    let cmd := strncpy cmd prefix (sizeof cmd) in
    let cmd := strncat cmd arg1 (size_sub (size_sub (sizeof cmd) (strlen cmd)) 1) in
    let cmd := strncat cmd infix (size_sub (size_sub (sizeof cmd) (strlen cmd)) 1) in
    let cmd := strncat cmd arg2 (size_sub (size_sub (sizeof cmd) (strlen cmd)) 1) in
    let cmd := strncat cmd suffix (size_sub (size_sub (sizeof cmd) (strlen cmd)) 1) in
    wrapper socket cmd.

(** What a wrapper does for a command text [text] without NUL: nothing
    when the text with its newline and terminator exceeds the 512
    bytes of [cmd], one [send] of the line otherwise. *)
Definition transmit (socket : Z) (text : chars) : IO Z :=
  fun env w =>
    if 510 <? Z.of_nat (length text) then (-1, w)
    else
      let line := text ++ [NEWLINE] in
      (status (to_int (os_send env w socket line 0)), w ++ [EvSend socket line 0]).

(** The events [transmit] adds. *)
Definition wire_output (socket : Z) (text : chars) : trace :=
  if 510 <? Z.of_nat (length text) then []
  else [EvSend socket (text ++ [NEWLINE]) 0].

(** A string without NUL bytes. *)
Definition nul_free (s : chars) : Prop := Forall (fun b => b <> NUL) s.

(** The array [cmd], of size [n], holds the string [text]. *)
Definition holds (cmd text : chars) (n : Z) : Prop :=
  cstr cmd = text /\ sizeof cmd = n.

End Shape.

(* ================================================================= *)
(** ** Mock transports *)

Module Mock.
Import CString OS.

(** Every [send] takes all the bytes; the peer has shut down. *)
Definition accepting : Env :=
  {| os_send := fun _ _ buf _ => Z.of_nat (length buf);
     os_recv := fun _ _ _ _ => RecvShutdown;
     os_shutdown := fun _ _ _ => 0;
     stack := [x55; xaa; x00; x7f] |}.

(** Every call fails. *)
Definition refusing : Env :=
  {| os_send := fun _ _ _ _ => -1;
     os_recv := fun _ _ _ _ => RecvError 104;
     os_shutdown := fun _ _ _ => -1;
     stack := [] |}.

(** The first [n] sends on the connection succeed, the later ones
    fail. *)
Definition failing_after (n : nat) : Env :=
  {| os_send := fun w _ buf _ =>
       if (length (sends w) <? n)%nat then Z.of_nat (length buf) else -1;
     os_recv := fun _ _ _ _ => RecvShutdown;
     os_shutdown := fun _ _ _ => 0;
     stack := [xff; xff] |}.


End Mock.

(* ================================================================= *)
(** ** Callers *)

Module Session.
Import CInt CString OS.
Local Open Scope io_scope.

(** A caller that issues the operations one after the other on one
    socket and keeps their results. *)
Fixpoint perform_each (ops : list Wire.operation) (socket : Z) : IO (list Z) :=
  match ops with
  | [] => ret []
  | o :: rest =>
      r <- Wire.perform o socket ;;
      rs <- perform_each rest socket ;;
      ret (r :: rs)
  end.

(** The operations that take no string: fixed commands, flags and
    numbers. *)
Definition numeric (o : Wire.operation) : bool :=
  match o with
  | Wire.AddVariable _ | Wire.AddVariableWithUnits _ _
  | Wire.RemoveVariable _ | Wire.SetClientTag _ => false
  | _ => true
  end.

(** Two receives in a row into the same reply buffer, as in the reading
    loop of the test programs. *)
Definition receive_twice (socket : Z) (server_reply : chars) (lenght flags : Z)
  : IO (Z * Z * chars) :=
  rb1 <- TVS.receive_message_from_variable_server socket server_reply lenght flags ;;
  rb2 <- TVS.receive_message_from_variable_server socket (snd rb1) lenght flags ;;
  ret (fst rb1, fst rb2, snd rb2).

(** A transport that takes five bytes of every [send]. *)
Definition short_writing : Env :=
  {| os_send := fun _ _ _ _ => 5;
     os_recv := fun _ _ _ _ => RecvShutdown;
     os_shutdown := fun _ _ _ => 0;
     stack := [x01; x02; x03] |}.

(** A peer whose [n]-th [recv] delivers the [n]-th of [messages], and
    that has shut down after the last. *)
Definition is_recv (e : event) : bool :=
  match e with EvRecv _ _ _ => true | _ => false end.

Definition replying (messages : list chars) : Env :=
  {| os_send := fun _ _ buf _ => Z.of_nat (length buf);
     os_recv := fun w _ _ _ =>
       match nth_error messages (length (filter is_recv w)) with
       | Some m => RecvMessage m
       | None => RecvShutdown
       end;
     os_shutdown := fun _ _ _ => 0;
     stack := [] |}.

End Session.

(* ================================================================= *)
(** * Properties *)

Import CInt CString OS Shape.

(** ** Machine integers *)

Section MachineIntegers.

Lemma size_t_small z : 0 <= z < SIZE_MOD -> size_t z = z.
Proof. intros H. unfold size_t. now apply Z.mod_small. Qed.

Lemma to_int_small z : in_int z -> to_int z = z.
Proof.
  unfold in_int, INT_MIN, INT_MAX, to_int. intros H.
  rewrite Z.mod_small by lia. lia.
Qed.

Lemma to_int_range z : in_int (to_int z).
Proof.
  unfold in_int, INT_MIN, INT_MAX, to_int.
  pose proof (Z.mod_pos_bound (z + 2147483648) 4294967296 eq_refl). lia.
Qed.

Lemma status_cases r : (r < 0 /\ status r = -1) \/ (0 <= r /\ status r = 0).
Proof. unfold status. destruct (Z.ltb_spec r 0); [left | right]; auto. Qed.

End MachineIntegers.

(** ** Strings *)

Section Strings.

Lemma nul_free_cstr s : nul_free (cstr s).
Proof.
  induction s as [|b r IH]; simpl; [constructor|].
  destruct (Byte.eqb b NUL) eqn:E; constructor; auto.
  now apply Byte.eqb_false.
Qed.

Lemma cstr_nul_free s : nul_free s -> cstr s = s.
Proof.
  induction 1 as [|b r Hb _ IH]; simpl; auto.
  destruct (Byte.eqb b NUL) eqn:E.
  - apply Byte.byte_dec_bl in E. contradiction.
  - now rewrite IH.
Qed.

Lemma cstr_idem s : cstr (cstr s) = cstr s.
Proof. apply cstr_nul_free, nul_free_cstr. Qed.

Lemma nul_free_iff s : nul_free s <-> cstr s = s.
Proof.
  split; [apply cstr_nul_free|]. intros <-. apply nul_free_cstr.
Qed.

Lemma nul_free_app a b : nul_free a -> nul_free b -> nul_free (a ++ b).
Proof. intros; apply Forall_app; auto. Qed.

Lemma nul_free_firstn n s : nul_free s -> nul_free (firstn n s).
Proof.
  unfold nul_free. intros H. revert n.
  induction H as [|b r Hb _ IH]; intros [|n]; simpl; constructor; auto.
Qed.

(** The string of [a ++ b] when [a] holds no NUL. *)
Lemma cstr_app a b : nul_free a -> cstr (a ++ b) = a ++ cstr b.
Proof.
  induction 1 as [|c r Hc _ IH]; simpl; auto.
  destruct (Byte.eqb c NUL) eqn:E.
  - apply Byte.byte_dec_bl in E. contradiction.
  - now rewrite IH.
Qed.

Lemma cstr_terminated a r : nul_free a -> cstr (a ++ NUL :: r) = a.
Proof. intros H. rewrite cstr_app by assumption. simpl. apply app_nil_r. Qed.

(** The string is a prefix of the array that holds it. *)
Lemma firstn_cstr s : firstn (length (cstr s)) s = cstr s.
Proof.
  induction s as [|b r IH]; simpl; auto.
  destruct (Byte.eqb b NUL); simpl; auto. now rewrite IH.
Qed.

Lemma strlen_nonneg s : 0 <= strlen s.
Proof. unfold strlen. lia. Qed.

Lemma strlen_app a b : nul_free a -> strlen (a ++ b) = Z.of_nat (length a) + strlen b.
Proof. intros H. unfold strlen. rewrite cstr_app, length_app by assumption. lia. Qed.

Lemma strlen_cstr s : strlen (cstr s) = strlen s.
Proof. unfold strlen. now rewrite cstr_idem. Qed.

Lemma digit_not_nul d : digit d <> NUL.
Proof.
  unfold digit.
  repeat match goal with
         | |- context [match ?x with _ => _ end] => destruct x
         end; discriminate.
Qed.

Lemma nul_free_udec fuel n : nul_free (udec fuel n).
Proof.
  revert n. induction fuel as [|f IH]; intros n; simpl; [constructor|].
  apply nul_free_app.
  - destruct (n <? 10); [constructor | apply IH].
  - constructor; [apply digit_not_nul | constructor].
Qed.

Lemma length_udec fuel n : (length (udec fuel n) <= fuel)%nat.
Proof.
  revert n. induction fuel as [|f IH]; intros n; simpl; [lia|].
  rewrite length_app. simpl.
  destruct (n <? 10); simpl; [lia|]. specialize (IH (n / 10)). lia.
Qed.

Lemma nul_free_format_i z : nul_free (format_i z).
Proof.
  unfold format_i. destruct (z <? 0); [constructor; [discriminate|]|];
    apply nul_free_udec.
Qed.

Lemma length_format_i z : (length (format_i z) <= 11)%nat.
Proof.
  unfold format_i. destruct (z <? 0).
  - change (length (x2d :: udec 10 (- z))) with (S (length (udec 10 (- z)))).
    pose proof (length_udec 10 (- z)). lia.
  - pose proof (length_udec 10 z). lia.
Qed.

(** [strncpy] with room for the terminator stores the string. *)
Lemma cstr_strncpy dst src n :
  strlen src < n -> cstr (strncpy dst src n) = cstr src.
Proof.
  unfold strlen, strncpy. intros H.
  rewrite firstn_all2 by lia.
  destruct (Z.to_nat n - length (cstr src))%nat as [|k] eqn:E; [lia|].
  simpl repeat. rewrite <- app_comm_cons.
  apply cstr_terminated, nul_free_cstr.
Qed.

(** [strncpy] over the whole array leaves its size alone. *)
Lemma sizeof_strncpy dst src : sizeof (strncpy dst src (sizeof dst)) = sizeof dst.
Proof.
  unfold sizeof, strncpy. rewrite Nat2Z.id.
  set (body := firstn (length dst) (cstr src)).
  assert (length body <= length dst)%nat by apply firstn_le_length.
  rewrite !length_app, repeat_length, length_skipn. lia.
Qed.

(** [strncat] appends the part of the source that [n] admits. *)
Lemma cstr_strncat dst src n :
  cstr (strncat dst src n) = cstr dst ++ firstn (Z.to_nat n) (cstr src).
Proof.
  unfold strncat. rewrite firstn_cstr.
  rewrite cstr_app by apply nul_free_cstr.
  f_equal. apply cstr_terminated, nul_free_firstn, nul_free_cstr.
Qed.

(** [strncat] stays inside the array when string, addition and
    terminator fit. *)
Lemma sizeof_strncat dst src n :
  strlen dst + strlen src + 1 <= sizeof dst ->
  sizeof (strncat dst src n) = sizeof dst.
Proof.
  unfold strlen, sizeof, strncat. intros H.
  rewrite firstn_cstr.
  set (body := firstn (Z.to_nat n) (cstr src)).
  assert (length body <= length (cstr src))%nat
    by (subst body; rewrite length_firstn; lia).
  rewrite !length_app, length_skipn.
  change (length [NUL]) with 1%nat. lia.
Qed.

(** The room [sizeof(cmd) - strlen(cmd) - 1] that every [strncat] of
    the library is given. *)
Lemma room_exact cmd :
  strlen cmd < sizeof cmd -> sizeof cmd < SIZE_MOD ->
  size_sub (size_sub (sizeof cmd) (strlen cmd)) 1 = sizeof cmd - strlen cmd - 1.
Proof.
  intros H1 H2. pose proof (strlen_nonneg cmd). unfold size_sub.
  rewrite (size_t_small (sizeof cmd - strlen cmd)) by lia.
  apply size_t_small. lia.
Qed.

Lemma cstr_strncat_room cmd src :
  strlen cmd + strlen src + 1 <= sizeof cmd -> sizeof cmd < SIZE_MOD ->
  cstr (strncat cmd src (size_sub (size_sub (sizeof cmd) (strlen cmd)) 1))
  = cstr cmd ++ cstr src.
Proof.
  intros H1 H2. pose proof (strlen_nonneg src).
  rewrite room_exact by lia. rewrite cstr_strncat. f_equal.
  apply firstn_all2. unfold strlen in *. lia.
Qed.

Lemma cstr_snprintf dst size out :
  nul_free out -> cstr (snprintf dst size out) = firstn (Z.to_nat (size - 1)) out.
Proof.
  intros H. unfold snprintf. apply cstr_terminated, nul_free_firstn, H.
Qed.

Lemma sizeof_fresh env n : sizeof (fresh env n) = Z.of_nat n.
Proof.
  unfold sizeof, fresh. rewrite length_firstn, length_app, repeat_length. lia.
Qed.

End Strings.

(** ** Assembling and sending a command *)

(** Replaces [size_t] sums that do not wrap by the plain sums. *)
Ltac size_exact :=
  unfold size_add;
  repeat match goal with
         | |- context [size_t ?z] =>
             rewrite (size_t_small z) by (unfold SIZE_MOD; lia)
         end.

Section Assembly.

Variables (env : Env) (socket : Z) (w : trace).

Lemma holds_strncpy buf src n :
  sizeof buf = n -> strlen src < n ->
  holds (strncpy buf src (sizeof buf)) (cstr src) n.
Proof.
  intros Hn Hs. split.
  - apply cstr_strncpy. lia.
  - now rewrite sizeof_strncpy.
Qed.

Lemma holds_strncat cmd text src n :
  holds cmd text n ->
  Z.of_nat (length text) + strlen src + 1 <= n -> n < SIZE_MOD ->
  holds (strncat cmd src (size_sub (size_sub (sizeof cmd) (strlen cmd)) 1))
        (text ++ cstr src) n.
Proof.
  intros [Hc Hn] Hfit Hmod.
  assert (Hlen : strlen cmd = Z.of_nat (length text))
    by (unfold strlen; now rewrite Hc).
  split.
  - rewrite cstr_strncat_room by lia. now rewrite Hc.
  - rewrite sizeof_strncat by lia. exact Hn.
Qed.

(** A command of at most 510 characters goes out in one [send], with
    one newline after it. *)
Lemma send_command_accept command :
  strlen command <= 510 ->
  TVS.send_command_to_variable_server socket command env w
  = (to_int (os_send env w socket (cstr command ++ [NEWLINE]) 0),
     w ++ [EvSend socket (cstr command ++ [NEWLINE]) 0]).
Proof.
  intros Hlen. pose proof (strlen_nonneg command) as Hpos.
  unfold TVS.send_command_to_variable_server, bind, auto_array.
  pose proof (sizeof_fresh env 512) as Hbuf.
  set (buf := fresh env 512) in *. change (Z.of_nat 512) with 512 in Hbuf.
  cbv beta iota.
  size_exact.
  destruct (Z.ltb_spec (sizeof buf) (strlen command + 2)) as [Hbad|_]; [lia|].
  cbv zeta.
  pose proof (holds_strncpy buf command 512 Hbuf ltac:(lia)) as H1.
  pose proof (holds_strncat _ _ [NEWLINE] 512 H1) as H2.
  change (cstr [NEWLINE]) with [NEWLINE] in H2.
  change (strlen [NEWLINE]) with 1 in H2.
  specialize (H2 ltac:(unfold strlen in Hlen; lia) ltac:(unfold SIZE_MOD; lia)).
  destruct H2 as [Hc _].
  unfold send, ret.
  set (cmd := strncat _ _ _) in *.
  assert (Hbytes : firstn (Z.to_nat (strlen cmd)) cmd = cstr command ++ [NEWLINE]).
  { unfold strlen. rewrite Nat2Z.id, firstn_cstr. exact Hc. }
  now rewrite Hbytes.
Qed.

(** A longer command is refused before any call to the transport. *)
Lemma send_command_reject command :
  510 < strlen command -> Wire.in_memory command ->
  TVS.send_command_to_variable_server socket command env w = (-1, w).
Proof.
  unfold Wire.in_memory, Wire.STRING_MAX. intros Hlen Hmem.
  unfold TVS.send_command_to_variable_server, bind, auto_array.
  pose proof (sizeof_fresh env 512) as Hbuf.
  set (buf := fresh env 512) in *. change (Z.of_nat 512) with 512 in Hbuf.
  cbv beta iota.
  size_exact.
  destruct (Z.ltb_spec (sizeof buf) (strlen command + 2)) as [_|Hbad];
    [reflexivity|lia].
Qed.

(** Every wrapper comes down to [transmit] of the command's text. *)
Lemma wrapper_transmit command :
  Wire.in_memory command ->
  wrapper socket command env w = transmit socket (cstr command) env w.
Proof.
  intros Hmem. unfold wrapper, transmit, bind.
  fold (strlen command).
  destruct (Z.ltb_spec 510 (strlen command)) as [Hbig|Hfit].
  - rewrite send_command_reject by assumption. reflexivity.
  - rewrite send_command_accept by assumption.
    unfold status, ret. now destruct (_ <? 0).
Qed.

Lemma transmit_oversized text :
  510 < Z.of_nat (length text) -> transmit socket text env w = (-1, w).
Proof.
  intros H. unfold transmit.
  destruct (Z.ltb_spec 510 (Z.of_nat (length text))); [reflexivity|lia].
Qed.

Lemma transmit_output text :
  snd (transmit socket text env w) = w ++ wire_output socket text.
Proof.
  unfold transmit, wire_output.
  destruct (510 <? Z.of_nat (length text)); simpl; [now rewrite app_nil_r|reflexivity].
Qed.

(** The three-part assembly when the text fits the array. *)
Lemma build3_fits cmd prefix arg suffix text :
  sizeof cmd <= 512 ->
  cstr prefix ++ cstr arg ++ cstr suffix = text ->
  Z.of_nat (length text) + 1 <= sizeof cmd ->
  build3 socket cmd prefix arg suffix env w = transmit socket text env w.
Proof.
  intros Hsz Htext Hfit.
  assert (Hsum : Z.of_nat (length text) = strlen prefix + strlen arg + strlen suffix)
    by (subst text; unfold strlen; rewrite !length_app; lia).
  pose proof (strlen_nonneg prefix) as Hp0.
  pose proof (strlen_nonneg arg) as Ha0.
  pose proof (strlen_nonneg suffix) as Hs0.
  unfold build3. size_exact.
  destruct (Z.ltb_spec (sizeof cmd)
              (strlen prefix + strlen arg + strlen suffix + 1)) as [Hbad|_]; [lia|].
  cbv zeta.
  pose proof (holds_strncpy cmd prefix (sizeof cmd) eq_refl ltac:(lia)) as H1.
  pose proof (holds_strncat _ _ arg _ H1
                ltac:(unfold strlen in *; lia) ltac:(unfold SIZE_MOD; lia)) as H2.
  pose proof (holds_strncat _ _ suffix _ H2
                ltac:(unfold strlen in *; rewrite length_app; lia)
                ltac:(unfold SIZE_MOD; lia)) as H3.
  destruct H3 as [Hc _]. rewrite <- app_assoc, Htext in Hc.
  set (cmd3 := strncat _ suffix _) in *.
  rewrite wrapper_transmit.
  - now rewrite Hc.
  - unfold Wire.in_memory, Wire.STRING_MAX, strlen. rewrite Hc. lia.
Qed.

(** The three-part assembly when the length check fails. *)
Lemma build3_rejects cmd prefix arg suffix :
  Wire.in_memory prefix -> Wire.in_memory arg -> Wire.in_memory suffix ->
  sizeof cmd < strlen prefix + strlen arg + strlen suffix + 1 ->
  build3 socket cmd prefix arg suffix env w = (-1, w).
Proof.
  unfold Wire.in_memory, Wire.STRING_MAX. intros Hp Ha Hs Hbig.
  pose proof (strlen_nonneg prefix) as Hp0.
  pose proof (strlen_nonneg arg) as Ha0.
  pose proof (strlen_nonneg suffix) as Hs0.
  unfold build3. size_exact.
  destruct (Z.ltb_spec (sizeof cmd)
              (strlen prefix + strlen arg + strlen suffix + 1)) as [_|Hbad];
    [reflexivity|lia].
Qed.

(** Both cases at once, for the 512-byte array. *)
Lemma build3_transmit cmd prefix arg suffix :
  sizeof cmd = 512 ->
  Wire.in_memory prefix -> Wire.in_memory arg -> Wire.in_memory suffix ->
  build3 socket cmd prefix arg suffix env w
  = transmit socket (cstr prefix ++ cstr arg ++ cstr suffix) env w.
Proof.
  intros Hsz Hp Ha Hs.
  set (text := cstr prefix ++ cstr arg ++ cstr suffix).
  assert (Hsum : Z.of_nat (length text) = strlen prefix + strlen arg + strlen suffix)
    by (subst text; unfold strlen; rewrite !length_app; lia).
  destruct (Z.le_gt_cases (Z.of_nat (length text) + 1) 512) as [Hfit|Hbig].
  - apply build3_fits; [lia | reflexivity | lia].
  - rewrite build3_rejects by (assumption || lia).
    symmetry. apply transmit_oversized. lia.
Qed.

End Assembly.

Section AssemblyOfTwo.

Variables (env : Env) (socket : Z) (w : trace).

Lemma build5_transmit cmd prefix arg1 infix arg2 suffix :
  sizeof cmd = 512 ->
  Wire.in_memory prefix -> Wire.in_memory arg1 -> Wire.in_memory infix ->
  Wire.in_memory arg2 -> Wire.in_memory suffix ->
  build5 socket cmd prefix arg1 infix arg2 suffix env w
  = transmit socket
      (cstr prefix ++ cstr arg1 ++ cstr infix ++ cstr arg2 ++ cstr suffix) env w.
Proof.
  unfold Wire.in_memory, Wire.STRING_MAX. intros Hsz Hp H1 Hi H2 Hs.
  pose proof (strlen_nonneg prefix) as Hp0.
  pose proof (strlen_nonneg arg1) as H10.
  pose proof (strlen_nonneg infix) as Hi0.
  pose proof (strlen_nonneg arg2) as H20.
  pose proof (strlen_nonneg suffix) as Hs0.
  set (text := cstr prefix ++ cstr arg1 ++ cstr infix ++ cstr arg2 ++ cstr suffix).
  assert (Hsum : Z.of_nat (length text)
                 = strlen prefix + strlen arg1 + strlen infix + strlen arg2
                   + strlen suffix)
    by (subst text; unfold strlen; rewrite !length_app; lia).
  unfold build5. size_exact.
  destruct (Z.ltb_spec (sizeof cmd)
              (strlen prefix + strlen arg1 + strlen infix + strlen arg2
               + strlen suffix + 1)) as [Hbig|Hfit].
  - cbv beta iota. unfold ret. symmetry. apply transmit_oversized. lia.
  - cbv zeta.
    pose proof (holds_strncpy cmd prefix (sizeof cmd) eq_refl ltac:(lia)) as A1.
    pose proof (holds_strncat _ _ arg1 _ A1
                  ltac:(unfold strlen in *; lia) ltac:(unfold SIZE_MOD; lia)) as A2.
    pose proof (holds_strncat _ _ infix _ A2
                  ltac:(unfold strlen in *; rewrite length_app; lia)
                  ltac:(unfold SIZE_MOD; lia)) as A3.
    pose proof (holds_strncat _ _ arg2 _ A3
                  ltac:(unfold strlen in *; rewrite !length_app; lia)
                  ltac:(unfold SIZE_MOD; lia)) as A4.
    pose proof (holds_strncat _ _ suffix _ A4
                  ltac:(unfold strlen in *; rewrite !length_app; lia)
                  ltac:(unfold SIZE_MOD; lia)) as A5.
    destruct A5 as [Hc _]. rewrite <- !app_assoc in Hc. fold text in Hc.
    set (cmd5 := strncat _ suffix _) in *.
    rewrite wrapper_transmit.
    + now rewrite Hc.
    + unfold Wire.in_memory, Wire.STRING_MAX, strlen. rewrite Hc. lia.
Qed.

End AssemblyOfTwo.

(** ** Each function as a transmission of its command text *)

(** Facts about string literals, by evaluation. *)
Ltac literal := unfold Wire.in_memory, Wire.STRING_MAX; now vm_compute.

(** Two transmissions of the same text, up to the nesting of [++]. *)
Ltac same_text :=
  f_equal; unfold Wire.template, Wire.assembled, Wire.quoted;
  rewrite <- ?app_assoc; reflexivity.

Section Functions.

Variables (env : Env) (socket : Z) (w : trace).

Lemma in_memory_short s : strlen s <= 512 -> Wire.in_memory s.
Proof. unfold Wire.in_memory, Wire.STRING_MAX. lia. Qed.

Lemma fixed_transmit text :
  strlen text <= 510 ->
  wrapper socket text env w = transmit socket (cstr text) env w.
Proof. intros H. apply wrapper_transmit, in_memory_short. lia. Qed.

Lemma add_variable_to_server_transmit n :
  Wire.in_memory n ->
  TVS.add_variable_to_server socket n env w
  = transmit socket (Wire.template (Wire.AddVariable n)) env w.
Proof.
  intros Hn.
  change (TVS.add_variable_to_server socket n env w)
    with (build3 socket (fresh env 512) (lit "trick.var_add(" ++ [DQUOTE]) n
            ([DQUOTE] ++ lit ")") env w).
  rewrite build3_transmit; [same_text | apply sizeof_fresh | literal | exact Hn | literal].
Qed.

Lemma remove_variable_from_server_transmit n :
  Wire.in_memory n ->
  TVS.remove_variable_from_server socket n env w
  = transmit socket (Wire.template (Wire.RemoveVariable n)) env w.
Proof.
  intros Hn.
  change (TVS.remove_variable_from_server socket n env w)
    with (build3 socket (fresh env 512) (lit "trick.var_remove(" ++ [DQUOTE]) n
            ([DQUOTE] ++ lit ")") env w).
  rewrite build3_transmit; [same_text | apply sizeof_fresh | literal | exact Hn | literal].
Qed.

Lemma set_client_tag_transmit t :
  Wire.in_memory t ->
  TVS.set_client_tag socket t env w
  = transmit socket (Wire.template (Wire.SetClientTag t)) env w.
Proof.
  intros Ht.
  change (TVS.set_client_tag socket t env w)
    with (build3 socket (fresh env 512) (lit "trick.var_set_client_tag(" ++ [DQUOTE]) t
            ([DQUOTE] ++ lit ")") env w).
  rewrite build3_transmit; [same_text | apply sizeof_fresh | literal | exact Ht | literal].
Qed.

Lemma add_variable_to_sever_with_units_transmit n u :
  Wire.in_memory n -> Wire.in_memory u ->
  TVS.add_variable_to_sever_with_units socket n u env w
  = transmit socket (Wire.template (Wire.AddVariableWithUnits n u)) env w.
Proof.
  intros Hn Hu.
  change (TVS.add_variable_to_sever_with_units socket n u env w)
    with (build5 socket (fresh env 512) (lit "trick.var_add(" ++ [DQUOTE]) n
            ([DQUOTE] ++ lit ", " ++ [DQUOTE]) u ([DQUOTE] ++ lit ")") env w).
  rewrite build5_transmit;
    [same_text | apply sizeof_fresh | literal | exact Hn | literal | exact Hu | literal].
Qed.

Lemma set_cycle_transmit p :
  nul_free p ->
  TVS.set_cycle socket p env w
  = transmit socket (Wire.assembled (Wire.SetCycle p)) env w.
Proof.
  intros Hp.
  change (TVS.set_cycle socket p env w)
    with (build3 socket (fresh env 512) (lit "trick.var_cycle(")
            (snprintf (fresh env 128) 128 p) (lit ")") env w).
  assert (Hper : cstr (snprintf (fresh env 128) 128 p) = firstn 127 p)
    by (now rewrite cstr_snprintf).
  rewrite build3_transmit.
  - rewrite Hper. same_text.
  - apply sizeof_fresh.
  - literal.
  - apply in_memory_short. unfold strlen. rewrite Hper.
    pose proof (firstn_le_length 127 p). lia.
  - literal.
Qed.

Lemma set_copy_mode_transmit m :
  TVS.set_copy_mode socket m env w
  = transmit socket (Wire.assembled (Wire.SetCopyMode m)) env w.
Proof.
  change (TVS.set_copy_mode socket m env w)
    with (build3 socket (fresh env 512) (lit "trick.var_set_copy_mode(")
            (snprintf (fresh env 4) 4 (format_i m)) (lit ")") env w).
  assert (Hmod : cstr (snprintf (fresh env 4) 4 (format_i m)) = firstn 3 (format_i m))
    by (rewrite cstr_snprintf; [reflexivity | apply nul_free_format_i]).
  rewrite build3_transmit.
  - rewrite Hmod. same_text.
  - apply sizeof_fresh.
  - literal.
  - apply in_memory_short. unfold strlen. rewrite Hmod.
    pose proof (firstn_le_length 3 (format_i m)). lia.
  - literal.
Qed.

Lemma set_debug_level_transmit l :
  TVS.set_debug_level socket l env w
  = transmit socket (Wire.template (Wire.SetDebugLevel l)) env w.
Proof.
  change (TVS.set_debug_level socket l env w)
    with (build3 socket (fresh env 256) (lit "trick.var_debug(")
            (snprintf (fresh env 64) 64 (format_i l)) (lit ")") env w).
  pose proof (length_format_i l) as Hl.
  assert (Hlev : cstr (snprintf (fresh env 64) 64 (format_i l)) = format_i l).
  { rewrite cstr_snprintf by apply nul_free_format_i.
    apply firstn_all2. change (Z.to_nat (64 - 1)) with 63%nat. lia. }
  apply build3_fits.
  - rewrite sizeof_fresh. lia.
  - rewrite Hlev. unfold Wire.template. rewrite <- ?app_assoc. reflexivity.
  - rewrite sizeof_fresh. unfold Wire.template, Wire.ns.
    rewrite !length_app.
    change (length (lit "trick")) with 5%nat.
    change (length (lit ".var_debug(")) with 11%nat.
    change (length (lit ")")) with 1%nat. lia.
Qed.

Lemma set_validate_addresses_transmit v :
  TVS.set_validate_addresses socket v env w
  = transmit socket (Wire.template (Wire.SetValidateAddresses v)) env w.
Proof.
  change (TVS.set_validate_addresses socket v env w)
    with (build3 socket (fresh env 256) (lit "trick.var_validate_address(")
            (if 0 <? v then strncpy (fresh env 16) (lit "True") 16
             else strncpy (fresh env 16) (lit "False") 16)
            (lit ")") env w).
  unfold Wire.template.
  destruct (0 <? v); apply build3_fits;
    try (rewrite sizeof_fresh; now vm_compute);
    rewrite cstr_strncpy by (now vm_compute); reflexivity.
Qed.

Lemma set_real_time_transmit e :
  TVS.set_real_time socket e env w
  = transmit socket (Wire.template (Wire.SetRealTime e)) env w.
Proof.
  change (TVS.set_real_time socket e env w)
    with (build3 socket (fresh env 256) (lit "trick.real_time_")
            (if 0 <? e then strncpy (fresh env 16) (lit "enable") 16
             else strncpy (fresh env 16) (lit "disable") 16)
            (lit "()") env w).
  unfold Wire.template.
  destruct (0 <? e); apply build3_fits;
    try (rewrite sizeof_fresh; now vm_compute);
    rewrite cstr_strncpy by (now vm_compute); reflexivity.
Qed.

(** Every operation is the transmission of the text it assembles. *)
Lemma perform_transmit o :
  Wire.well_formed o ->
  Wire.perform o socket env w = transmit socket (Wire.assembled o) env w.
Proof.
  destruct o; simpl Wire.well_formed; intros Hwf;
    try (apply fixed_transmit; now vm_compute).
  - now apply add_variable_to_server_transmit.
  - destruct Hwf. now apply add_variable_to_sever_with_units_transmit.
  - now apply remove_variable_from_server_transmit.
  - destruct Hwf as [Hp _]. apply set_cycle_transmit. now apply nul_free_iff.
  - apply set_copy_mode_transmit.
  - apply set_validate_addresses_transmit.
  - apply set_real_time_transmit.
  - apply set_debug_level_transmit.
  - now apply set_client_tag_transmit.
Qed.

End Functions.

(** ** [close] *)

Section Close.

Variables (env : Env) (socket : Z).

Local Notation "'EXIT'" := (EvSend socket Wire.EXIT_LINE 0).

Lemma send_exit w :
  TVS.send_command_to_variable_server socket (lit "trick.var_exit()") env w
  = (to_int (os_send env w socket Wire.EXIT_LINE 0), w ++ [EXIT]).
Proof. rewrite send_command_accept by now vm_compute. reflexivity. Qed.

(** One level of [close]: the send, then either the early return or
    the nested call. *)
Lemma close_step depth w :
  TVS.close (S depth) socket env w
  = if to_int (os_send env w socket Wire.EXIT_LINE 0) <? 0
    then (Some (-1), w ++ [EXIT])
    else let (inner, w') := TVS.close depth socket env (w ++ [EXIT]) in
         (match inner with None => None | Some _ => Some 0 end, w').
Proof.
  cbn [TVS.close]. unfold bind at 1. rewrite send_exit.
  destruct (_ <? 0); [reflexivity|].
  unfold bind. destruct (TVS.close depth socket env (w ++ [EXIT])) as [[r|] w'];
    reflexivity.
Qed.

Lemma teardowns_send w fd buf flags :
  teardowns (w ++ [EvSend fd buf flags]) = teardowns w.
Proof. unfold teardowns. rewrite filter_app. simpl. now rewrite app_nil_r. Qed.

(** [close] adds sends of the exit line and nothing else. *)
Lemma close_adds_exits depth :
  forall w, exists n, snd (TVS.close depth socket env w) = w ++ repeat EXIT n.
Proof.
  induction depth as [|d IH]; intros w.
  - exists 0%nat. simpl. now rewrite app_nil_r.
  - rewrite close_step. destruct (_ <? 0).
    + exists 1%nat. reflexivity.
    + destruct (IH (w ++ [EXIT])) as [n Hn].
      destruct (TVS.close d socket env (w ++ [EXIT])) as [inner w'].
      simpl in *. exists (S n). rewrite Hn, <- app_assoc. reflexivity.
Qed.

(** A call that gets to its send adds at least one exit line. *)
Lemma close_adds_exits_S depth w :
  exists n, snd (TVS.close (S depth) socket env w) = w ++ EXIT :: repeat EXIT n.
Proof.
  rewrite close_step. destruct (_ <? 0).
  - exists 0%nat. reflexivity.
  - destruct (close_adds_exits depth (w ++ [EXIT])) as [n Hn].
    destruct (TVS.close depth socket env (w ++ [EXIT])) as [inner w'].
    simpl in *. exists n. rewrite Hn, <- app_assoc. reflexivity.
Qed.

(** After a send that succeeded, the trace is that of the nested
    call. *)
Lemma snd_close_ok depth w :
  0 <= to_int (os_send env w socket Wire.EXIT_LINE 0) ->
  snd (TVS.close (S depth) socket env w)
  = snd (TVS.close depth socket env (w ++ [EXIT])).
Proof.
  intros Hok. rewrite close_step.
  destruct (Z.ltb_spec (to_int (os_send env w socket Wire.EXIT_LINE 0)) 0); [lia|].
  now destruct (TVS.close depth socket env (w ++ [EXIT])).
Qed.

Lemma teardowns_exits w n : teardowns (w ++ repeat EXIT n) = teardowns w.
Proof.
  unfold teardowns. rewrite filter_app.
  replace (filter is_close (repeat EXIT n)) with (@nil event);
    [now rewrite app_nil_r|].
  induction n; simpl; auto.
Qed.

(** The relation and the function agree: a call returns [r] exactly
    when some depth of nesting is enough for the function to give
    [r]. *)
Lemma close_returns_depth w r w' :
  TVS.close_returns env socket w r w' ->
  exists depth, TVS.close depth socket env w = (Some r, w').
Proof.
  induction 1 as [w r w' Hsend Hneg | w r w' inner w'' Hsend Hpos _ [d IH]];
    rewrite send_exit in Hsend; inversion Hsend; subst; clear Hsend.
  - exists 1%nat. rewrite close_step.
    destruct (Z.ltb_spec (to_int (os_send env w socket Wire.EXIT_LINE 0)) 0);
      [reflexivity|lia].
  - exists (S d). rewrite close_step.
    destruct (Z.ltb_spec (to_int (os_send env w socket Wire.EXIT_LINE 0)) 0); [lia|].
    now rewrite IH.
Qed.

Lemma close_depth_returns depth :
  forall w r w',
    TVS.close depth socket env w = (Some r, w') ->
    TVS.close_returns env socket w r w'.
Proof.
  induction depth as [|d IH]; intros w r w' H.
  - discriminate.
  - rewrite close_step in H.
    destruct (Z.ltb_spec (to_int (os_send env w socket Wire.EXIT_LINE 0)) 0)
      as [Hneg|Hpos].
    + inversion H; subst.
      eapply TVS.close_send_failed; [apply send_exit | exact Hneg].
    + destruct (TVS.close d socket env (w ++ [EXIT])) as [[inner|] w1] eqn:E;
        inversion H; subst.
      eapply TVS.close_send_ok; [apply send_exit | exact Hpos | apply IH, E].
Qed.

(** On a transport that takes every exit line, no depth is enough. *)
Lemma close_never_done depth :
  (forall w, 0 <= to_int (os_send env w socket Wire.EXIT_LINE 0)) ->
  forall w, TVS.close depth socket env w = (None, w ++ repeat EXIT depth).
Proof.
  intros Hok. induction depth as [|d IH]; intros w.
  - simpl. now rewrite app_nil_r.
  - rewrite close_step.
    destruct (Z.ltb_spec (to_int (os_send env w socket Wire.EXIT_LINE 0)) 0) as [Hneg|_].
    + specialize (Hok w). lia.
    + rewrite IH. simpl. now rewrite <- app_assoc.
Qed.

End Close.

(** ** The raw send *)

Section RawSend.

Variables (env : Env) (socket : Z) (w : trace).

(** C5: for every text the raw send accepts (at most 510 characters),
    exactly one newline is appended to the caller's text, whatever
    the text ends with, and the whole line goes out in one [send];
    a text that already ends with a newline goes out with two. *)
Theorem raw_send_appends_one_newline text :
  strlen text <= 510 ->
  TVS.send_command_to_variable_server socket text env w
  = (to_int (os_send env w socket (cstr text ++ [NEWLINE]) 0),
     w ++ [EvSend socket (cstr text ++ [NEWLINE]) 0])
  /\ (forall t, cstr text = t ++ [NEWLINE] ->
                snd (TVS.send_command_to_variable_server socket text env w)
                = w ++ [EvSend socket (t ++ [NEWLINE; NEWLINE]) 0]).
Proof.
  intros Hlen. split.
  - now apply send_command_accept.
  - intros t Ht. rewrite send_command_accept by assumption.
    simpl snd. rewrite Ht, <- app_assoc. reflexivity.
Qed.

(** C3, as amended: the raw send fails before any I/O exactly when the
    text, its newline and the terminating NUL exceed the 512 bytes of
    the command array; a text of at most 510 characters is written,
    and the result is then the count the transport reports. *)
Theorem raw_send_bound text :
  Wire.in_memory text ->
  (strlen text + 2 <= Wire.MAX_COMMAND ->
     TVS.send_command_to_variable_server socket text env w
     = (to_int (os_send env w socket (cstr text ++ [NEWLINE]) 0),
        w ++ [EvSend socket (cstr text ++ [NEWLINE]) 0]))
  /\ (Wire.MAX_COMMAND < strlen text + 2 ->
        TVS.send_command_to_variable_server socket text env w = (-1, w))
  /\ (strlen text + 2 <= Wire.MAX_COMMAND ->
        in_int (os_send env w socket (cstr text ++ [NEWLINE]) 0) ->
        fst (TVS.send_command_to_variable_server socket text env w)
        = os_send env w socket (cstr text ++ [NEWLINE]) 0).
Proof.
  unfold Wire.MAX_COMMAND. intros Hmem. repeat split.
  - intros H. apply send_command_accept. lia.
  - intros H. apply send_command_reject; [lia | exact Hmem].
  - intros H Hint. rewrite send_command_accept by lia.
    simpl fst. now apply to_int_small.
Qed.

End RawSend.

Lemma raw_send_appends_one_newline_witness :
  strlen (lit "trick.var_send()" ++ [NEWLINE]) <= 510
  /\ snd (TVS.send_command_to_variable_server 3 (lit "trick.var_send()" ++ [NEWLINE])
            Mock.accepting [])
     = [EvSend 3 (lit "trick.var_send()" ++ [NEWLINE; NEWLINE]) 0].
Proof.
  assert (H : strlen (lit "trick.var_send()" ++ [NEWLINE]) <= 510) by now vm_compute.
  split; [exact H|].
  exact (proj2 (raw_send_appends_one_newline Mock.accepting 3 []
                  (lit "trick.var_send()" ++ [NEWLINE]) H)
           (lit "trick.var_send()") eq_refl).
Defined.

(** C3, as stated, fails: a text of 511 bytes has length + 1 = 512,
    which does not exceed the 512-byte array, yet the call is refused
    and nothing is written. *)
Lemma raw_send_refuses_511 :
  Z.of_nat (length (repeat x61 511)) + 1 <= Wire.MAX_COMMAND
  /\ TVS.send_command_to_variable_server 3 (repeat x61 511) Mock.accepting []
     = (-1, []).
Proof. split; now vm_compute. Qed.

Lemma raw_send_bound_witness :
  Wire.in_memory (lit "trick.var_pause()")
  /\ strlen (lit "trick.var_pause()") + 2 <= Wire.MAX_COMMAND
  /\ in_int (os_send Mock.accepting [] 3 (cstr (lit "trick.var_pause()") ++ [NEWLINE]) 0)
  /\ TVS.send_command_to_variable_server 3 (lit "trick.var_pause()") Mock.accepting []
     = (18, [EvSend 3 (lit "trick.var_pause()" ++ [NEWLINE]) 0])
  /\ fst (TVS.send_command_to_variable_server 3 (lit "trick.var_pause()")
            Mock.accepting []) = 18.
Proof.
  assert (Hm : Wire.in_memory (lit "trick.var_pause()")) by literal.
  assert (Hl : strlen (lit "trick.var_pause()") + 2 <= Wire.MAX_COMMAND)
    by now vm_compute.
  assert (Hi : in_int (os_send Mock.accepting [] 3
                         (cstr (lit "trick.var_pause()") ++ [NEWLINE]) 0))
    by (split; now vm_compute).
  destruct (raw_send_bound Mock.accepting 3 [] (lit "trick.var_pause()") Hm)
    as [Hacc [_ Hcount]].
  split; [exact Hm|]. split; [exact Hl|]. split; [exact Hi|].
  split; [exact (Hacc Hl) | exact (Hcount Hl Hi)].
Defined.

(** ** The command-building operations *)

(** Evaluates the lengths of string literals in a hypothesis. *)
Ltac literal_lengths H :=
  unfold Wire.template, Wire.ns, Wire.quoted in H;
  rewrite ?length_app in H;
  repeat match type of H with
         | context [length (lit ?s)] =>
             let n := eval vm_compute in (length (lit s)) in
             change (length (lit s)) with n in H
         end.

Section Operations.

Variables (env : Env) (socket : Z) (w : trace).

(** A template too long for the array is assembled too long as well;
    the number texts never make a template that long. *)
Lemma oversized_assembled o :
  Wire.well_formed o ->
  Z.of_nat (length (Wire.template o)) + 1 > Wire.MAX_COMMAND ->
  510 < Z.of_nat (length (Wire.assembled o)).
Proof.
  unfold Wire.MAX_COMMAND.
  destruct o; intros Hwf Hbig;
    try (change (Wire.assembled ?x) with (Wire.template x); lia).
  - destruct Hwf as [_ Hp]. unfold Wire.LF_MAX in Hp.
    literal_lengths Hbig. lia.
  - pose proof (length_format_i mode) as Hm.
    literal_lengths Hbig. lia.
Qed.

(** C4: whenever the template with its arguments, plus one, exceeds
    the 512-byte command bound, the operation fails and the trace is
    left as it was: no transport call is made.  The raw send obeys
    the same bound. *)
Theorem oversized_command_not_written :
  (forall o,
      Wire.well_formed o ->
      Z.of_nat (length (Wire.template o)) + 1 > Wire.MAX_COMMAND ->
      Wire.perform o socket env w = (-1, w))
  /\ (forall text,
        Wire.in_memory text ->
        strlen text + 1 > Wire.MAX_COMMAND ->
        TVS.send_command_to_variable_server socket text env w = (-1, w)).
Proof.
  split.
  - intros o Hwf Hbig. rewrite perform_transmit by assumption.
    apply transmit_oversized. now apply oversized_assembled.
  - unfold Wire.MAX_COMMAND. intros text Hmem Hbig.
    apply send_command_reject; [lia | exact Hmem].
Qed.

(** C6: adding the variable [dyn.baseball.pos[0]] makes one transport
    call, the send of the [var_add] line for that name with a single
    newline after it. *)
Theorem add_variable_baseball :
  snd (TVS.add_variable_to_server socket (lit "dyn.baseball.pos[0]") env w)
  = w ++ [EvSend socket
            (lit "trick.var_add(" ++ [DQUOTE] ++ lit "dyn.baseball.pos[0]"
               ++ [DQUOTE] ++ lit ")" ++ [NEWLINE]) 0].
Proof.
  rewrite add_variable_to_server_transmit by literal.
  rewrite transmit_output. reflexivity.
Qed.

(** C10: the flag operations read their flag by its sign.  The
    validate-addresses line carries [True] when the flag is positive
    and [False] for zero and for every negative value; the real-time
    line carries [enable] when the flag is positive and [disable]
    otherwise. *)
Theorem flags_read_by_sign z :
  snd (TVS.set_validate_addresses socket z env w)
  = w ++ [EvSend socket
            (if 0 <? z then lit "trick.var_validate_address(True)" ++ [NEWLINE]
             else lit "trick.var_validate_address(False)" ++ [NEWLINE]) 0]
  /\ snd (TVS.set_real_time socket z env w)
     = w ++ [EvSend socket
               (if 0 <? z then lit "trick.real_time_enable()" ++ [NEWLINE]
                else lit "trick.real_time_disable()" ++ [NEWLINE]) 0].
Proof.
  rewrite set_validate_addresses_transmit, set_real_time_transmit.
  rewrite !transmit_output. unfold Wire.template.
  destruct (0 <? z); split; reflexivity.
Qed.

(** C1 fails for the copy mode: [snprintf] stores three characters of
    the mode in [mod], so mode 1000 is sent as 100, and the call
    reports what the send reports.  The debug level, formatted into
    64 bytes, goes out in full.  The update period is cut the same
    way, to the 127 characters that [per] holds: for the period 2^500
    the line carries the first 127 of its 151 digits. *)
Theorem set_copy_mode_cuts_mode :
  Wire.perform (Wire.SetCopyMode 1000) socket env w
  = (status (to_int (os_send env w socket
                       (lit "trick.var_set_copy_mode(100)" ++ [NEWLINE]) 0)),
     w ++ [EvSend socket (lit "trick.var_set_copy_mode(100)" ++ [NEWLINE]) 0])
  /\ Wire.template (Wire.SetCopyMode 1000) = lit "trick.var_set_copy_mode(1000)"
  /\ Wire.perform (Wire.SetCopyMode 1000) 3 Mock.accepting []
     = (0, [EvSend 3 (lit "trick.var_set_copy_mode(100)" ++ [NEWLINE]) 0])
  /\ snd (Wire.perform (Wire.SetDebugLevel 1000) socket env w)
     = w ++ [EvSend socket (lit "trick.var_debug(1000)" ++ [NEWLINE]) 0]
  /\ Wire.perform (Wire.SetCycle Wire.lf_two_pow_500) 3 Mock.accepting []
     = (0, [EvSend 3 (lit "trick.var_cycle(" ++ firstn 127 (udec 151 (2 ^ 500))
                        ++ lit ")" ++ [NEWLINE]) 0])
  /\ Wire.template (Wire.SetCycle Wire.lf_two_pow_500)
     = lit "trick.var_cycle(" ++ udec 151 (2 ^ 500) ++ lit ".000000)".
Proof.
  split; [|split; [|split; [|split; [|split]]]].
  - simpl Wire.perform. rewrite set_copy_mode_transmit. reflexivity.
  - reflexivity.
  - now vm_compute.
  - simpl Wire.perform. rewrite set_debug_level_transmit, transmit_output.
    reflexivity.
  - now vm_compute.
  - now vm_compute.
Qed.

(** What holds of C1: an operation whose text was not cut sends its
    template and one newline, or nothing when that is too long. *)
Lemma perform_sends_template o :
  Wire.well_formed o ->
  Wire.assembled o = Wire.template o ->
  Wire.perform o socket env w = transmit socket (Wire.template o) env w.
Proof. intros Hwf <-. now apply perform_transmit. Qed.


End Operations.

Lemma oversized_command_not_written_witness :
  Wire.well_formed (Wire.AddVariable (repeat x61 495))
  /\ Z.of_nat (length (Wire.template (Wire.AddVariable (repeat x61 495)))) + 1
     > Wire.MAX_COMMAND
  /\ Wire.perform (Wire.AddVariable (repeat x61 495)) 3 Mock.accepting [] = (-1, []).
Proof.
  assert (Hwf : Wire.well_formed (Wire.AddVariable (repeat x61 495))) by literal.
  assert (Hbig : Z.of_nat (length (Wire.template (Wire.AddVariable (repeat x61 495))))
                 + 1 > Wire.MAX_COMMAND) by now vm_compute.
  split; [exact Hwf|]. split; [exact Hbig|].
  exact (proj1 (oversized_command_not_written Mock.accepting 3 []) _ Hwf Hbig).
Defined.

(** ** Purity of the wire output *)

Section Purity.

Variable socket : Z.



End Purity.



(** ** The receive *)

Section Receive.

Variables (env : Env) (socket : Z) (w : trace).

Lemma receive_unfold buf lenght flags :
  TVS.receive_message_from_variable_server socket buf lenght flags env w
  = (to_int (recv_ret (os_recv env w socket lenght flags)),
     match os_recv env w socket lenght flags with
     | RecvMessage data => data ++ skipn (length data) buf
     | _ => buf
     end,
     w ++ [EvRecv socket lenght flags]).
Proof. reflexivity. Qed.


End Receive.



(** ** What [close] does *)

Section CloseClaims.

Variables (env : Env) (socket : Z) (w : trace).

Local Notation "'EXIT'" := (EvSend socket Wire.EXIT_LINE 0).

(** Whatever [close] returns, the trace starts with the exit line and
    the result is the status of that first send. *)
Lemma close_returns_first r w' :
  TVS.close_returns env socket w r w' ->
  (exists n, w' = w ++ EXIT :: repeat EXIT n)
  /\ r = status (to_int (os_send env w socket Wire.EXIT_LINE 0)).
Proof.
  intros H. destruct H as [w0 r0 w1 Hsend Hneg | w0 r0 w1 inner w2 Hsend Hpos Hin];
    rewrite send_exit in Hsend; inversion Hsend; subst; clear Hsend.
  - split; [exists 0%nat; reflexivity|].
    unfold status.
    destruct (Z.ltb_spec (to_int (os_send env w0 socket Wire.EXIT_LINE 0)) 0);
      [reflexivity|lia].
  - split.
    + apply close_returns_depth in Hin. destruct Hin as [d Hd].
      destruct (close_adds_exits env socket d (w0 ++ [EvSend socket Wire.EXIT_LINE 0]))
        as [n Hn].
      rewrite Hd in Hn. simpl in Hn. exists n. rewrite Hn, <- app_assoc. reflexivity.
    + unfold status.
      destruct (Z.ltb_spec (to_int (os_send env w0 socket Wire.EXIT_LINE 0)) 0);
        [lia|reflexivity].
Qed.

(** C2, as amended: [close] first sends the exit line.  When that send
    fails it returns -1 at once: the send is the only call made, and
    the connection is not torn down.  Whenever [close] returns, its
    result is the outcome of that first send alone, -1 if it failed
    and 0 otherwise. *)
Theorem close_reports_first_send :
  (to_int (os_send env w socket Wire.EXIT_LINE 0) < 0 ->
     TVS.close_returns env socket w (-1) (w ++ [EXIT])
     /\ (forall depth,
            TVS.close (S depth) socket env w = (Some (-1), w ++ [EXIT]))
     /\ teardowns (w ++ [EXIT]) = teardowns w)
  /\ (forall r w',
        TVS.close_returns env socket w r w' ->
        (exists n, w' = w ++ EXIT :: repeat EXIT n)
        /\ r = status (to_int (os_send env w socket Wire.EXIT_LINE 0))).
Proof.
  split.
  - intros Hneg. split; [|split].
    + eapply TVS.close_send_failed; [apply send_exit | exact Hneg].
    + intros depth. rewrite close_step.
      destruct (Z.ltb_spec (to_int (os_send env w socket Wire.EXIT_LINE 0)) 0);
        [reflexivity|lia].
    + apply teardowns_send.
  - intros r w'. apply close_returns_first.
Qed.

(** C9: when the send of the exit line succeeds, [close] calls itself:
    the call at depth [S depth] is the send followed by the call at
    [depth], so the exit line is transmitted at least twice; no
    [close(2)] ever appears in the trace; and on a transport whose
    sends all succeed no depth of nesting lets [close] return. *)
Theorem close_calls_itself :
  (0 <= to_int (os_send env w socket Wire.EXIT_LINE 0) ->
     (forall depth,
         TVS.close (S depth) socket env w
         = let (inner, w') := TVS.close depth socket env (w ++ [EXIT]) in
           (match inner with None => None | Some _ => Some 0 end, w'))
     /\ (forall depth, exists n,
            snd (TVS.close (S (S depth)) socket env w)
            = w ++ EXIT :: EXIT :: repeat EXIT n))
  /\ (forall depth, teardowns (snd (TVS.close depth socket env w)) = teardowns w)
  /\ ((forall w0, 0 <= to_int (os_send env w0 socket Wire.EXIT_LINE 0)) ->
        (forall depth,
            TVS.close depth socket env w = (None, w ++ repeat EXIT depth))
        /\ ~ (exists r w', TVS.close_returns env socket w r w')).
Proof.
  split; [|split].
  - intros Hok.
    assert (Hstep : forall depth,
               TVS.close (S depth) socket env w
               = let (inner, w') := TVS.close depth socket env (w ++ [EXIT]) in
                 (match inner with None => None | Some _ => Some 0 end, w')).
    { intros depth. rewrite close_step.
      destruct (Z.ltb_spec (to_int (os_send env w socket Wire.EXIT_LINE 0)) 0);
        [lia|reflexivity]. }
    split; [exact Hstep|].
    intros depth. rewrite snd_close_ok by exact Hok.
    destruct (close_adds_exits_S env socket depth (w ++ [EXIT])) as [n Hn].
    exists n. rewrite Hn, <- app_assoc. reflexivity.
  - intros depth. destruct (close_adds_exits env socket depth w) as [n Hn].
    rewrite Hn. apply teardowns_exits.
  - intros Hok. split.
    + intros depth. now apply close_never_done.
    + intros [r [w' H]]. apply close_returns_depth in H. destruct H as [d Hd].
      rewrite close_never_done in Hd by assumption. discriminate.
Qed.

End CloseClaims.

(** C2, as stated, fails: on a transport that fails the send, [close]
    returns -1 and the trace holds the send alone; [close(2)] is called
    zero times, not once. *)
Lemma close_failed_send_no_teardown :
  TVS.close_returns Mock.refusing 3 [] (-1) [EvSend 3 Wire.EXIT_LINE 0]
  /\ TVS.close 1 3 Mock.refusing [] = (Some (-1), [EvSend 3 Wire.EXIT_LINE 0])
  /\ teardowns [EvSend 3 Wire.EXIT_LINE 0] = 0%nat
  /\ teardowns [EvSend 3 Wire.EXIT_LINE 0] <> 1%nat.
Proof.
  split; [|split; [|split]].
  - apply (close_depth_returns Mock.refusing 3 1). now vm_compute.
  - now vm_compute.
  - reflexivity.
  - discriminate.
Qed.

Lemma close_reports_first_send_witness :
  to_int (os_send Mock.refusing [] 3 Wire.EXIT_LINE 0) < 0
  /\ TVS.close_returns Mock.refusing 3 [] (-1) [EvSend 3 Wire.EXIT_LINE 0]
  /\ TVS.close 4 3 Mock.refusing [] = (Some (-1), [EvSend 3 Wire.EXIT_LINE 0]).
Proof.
  assert (Hneg : to_int (os_send Mock.refusing [] 3 Wire.EXIT_LINE 0) < 0)
    by now vm_compute.
  split; [exact Hneg|].
  destruct (proj1 (close_reports_first_send Mock.refusing 3 []) Hneg) as [Hr [Hd _]].
  split; [exact Hr | exact (Hd 3%nat)].
Defined.

Lemma close_calls_itself_witness :
  (forall w0, 0 <= to_int (os_send Mock.accepting w0 3 Wire.EXIT_LINE 0))
  /\ TVS.close 4 3 Mock.accepting [] = (None, repeat (EvSend 3 Wire.EXIT_LINE 0) 4)
  /\ ~ (exists r w', TVS.close_returns Mock.accepting 3 [] r w').
Proof.
  assert (Hok : forall w0, 0 <= to_int (os_send Mock.accepting w0 3 Wire.EXIT_LINE 0))
    by (intros w0; now vm_compute).
  split; [exact Hok|].
  destruct (proj2 (proj2 (close_calls_itself Mock.accepting 3 [])) Hok) as [Hd Hnever].
  split; [exact (Hd 4%nat) | exact Hnever].
Defined.


(* ================================================================= *)
(** * Further properties of the library *)

(** ** Results and capacities of the operations *)

Section Results.

Variables (env : Env) (socket : Z) (w : trace).

(** X1: an operation returns 0 or -1 and nothing else.  It returns 0
    exactly when its line was short enough to be handed to [send] and
    [send] did not report an error; the count [send] reports is not
    looked at, so a write that took only part of the line is a
    success. *)
Theorem operation_result o :
  Wire.well_formed o ->
  let r := fst (Wire.perform o socket env w) in
  let line := Wire.assembled o ++ [NEWLINE] in
  (r = 0 \/ r = -1)
  /\ (r = 0 <->
      Z.of_nat (length (Wire.assembled o)) <= 510
      /\ 0 <= to_int (os_send env w socket line 0))
  /\ (forall k,
         Z.of_nat (length (Wire.assembled o)) <= 510 ->
         os_send env w socket line 0 = k ->
         0 <= k < Z.of_nat (length line) ->
         r = 0).
Proof.
  intros Hwf r line. subst r line. rewrite perform_transmit by assumption.
  unfold transmit.
  destruct (Z.ltb_spec 510 (Z.of_nat (length (Wire.assembled o)))) as [Hbig|Hfit];
    simpl fst.
  - split; [now right|]. split; [split; [discriminate | lia] | intros; lia].
  - destruct (status_cases
                (to_int (os_send env w socket (Wire.assembled o ++ [NEWLINE]) 0)))
      as [[Hneg Hs]|[Hpos Hs]]; rewrite Hs.
    + split; [now right|]. split; [split; [discriminate | lia]|].
      intros k _ Hk Hrange. rewrite Hk in Hneg.
      rewrite length_app in Hrange. simpl in Hrange.
      rewrite to_int_small in Hneg by (unfold in_int, INT_MIN, INT_MAX; lia). lia.
    + split; [now left|]. split; [split; [lia | reflexivity] | reflexivity].
Qed.

Lemma length_template_add n :
  Z.of_nat (length (Wire.template (Wire.AddVariable n))) = 17 + strlen n.
Proof.
  unfold Wire.template, Wire.quoted, Wire.ns, strlen. rewrite !length_app.
  change (length (lit "trick")) with 5%nat.
  change (length (lit ".var_add(")) with 9%nat.
  change (length (lit ")")) with 1%nat. simpl length. lia.
Qed.




(** A transmission is a refusal or one send, by the length of the
    text. *)
Lemma transmit_cases text :
  (510 < Z.of_nat (length text) /\ transmit socket text env w = (-1, w))
  \/ (Z.of_nat (length text) <= 510
      /\ transmit socket text env w
         = (status (to_int (os_send env w socket (text ++ [NEWLINE]) 0)),
            w ++ [EvSend socket (text ++ [NEWLINE]) 0])).
Proof.
  unfold transmit. destruct (Z.ltb_spec 510 (Z.of_nat (length text))); auto.
Qed.


End Results.

Lemma operation_result_witness :
  Wire.well_formed (Wire.SetCopyMode 1)
  /\ fst (Wire.perform (Wire.SetCopyMode 1) 3 Session.short_writing []) = 0.
Proof.
  assert (Hwf : Wire.well_formed (Wire.SetCopyMode 1))
    by (split; now vm_compute).
  split; [exact Hwf|].
  apply (proj2 (proj2 (operation_result Session.short_writing 3 []
                         (Wire.SetCopyMode 1) Hwf)) 5);
    [now vm_compute | reflexivity | split; now vm_compute].
Defined.


(** ** The arrays *)

Section Arrays.

(** X3: the [strncat] idiom of the library,
    [strncat(cmd, src, sizeof(cmd) - strlen(cmd) - 1)], never writes
    past the array, however long the source is: the array keeps its
    size, still holds a terminated string, and that string is the old
    one followed by as much of the source as the room admits. *)
Theorem strncat_idiom_stays_in_array cmd src :
  strlen cmd < sizeof cmd -> sizeof cmd < SIZE_MOD ->
  let cmd' := strncat cmd src (size_sub (size_sub (sizeof cmd) (strlen cmd)) 1) in
  sizeof cmd' = sizeof cmd
  /\ strlen cmd' < sizeof cmd'
  /\ cstr cmd'
     = cstr cmd ++ firstn (Z.to_nat (sizeof cmd - strlen cmd - 1)) (cstr src).
Proof.
  intros Hterm Hmod cmd'. subst cmd'. rewrite room_exact by assumption.
  set (n := Z.to_nat (sizeof cmd - strlen cmd - 1)).
  assert (Hc : cstr (strncat cmd src (sizeof cmd - strlen cmd - 1))
               = cstr cmd ++ firstn n (cstr src)) by apply cstr_strncat.
  assert (Hbody : (length (firstn n (cstr src)) <= n)%nat) by apply firstn_le_length.
  assert (Hn : Z.of_nat n = sizeof cmd - strlen cmd - 1) by (subst n; lia).
  assert (Hs : sizeof (strncat cmd src (sizeof cmd - strlen cmd - 1)) = sizeof cmd).
  { unfold strncat. fold n. clearbody n. unfold sizeof. rewrite firstn_cstr.
    rewrite !length_app, length_skipn. change (length [NUL]) with 1%nat.
    unfold strlen, sizeof in *. lia. }
  split; [exact Hs|]. split; [|exact Hc].
  rewrite Hs. unfold strlen at 1. rewrite Hc, length_app. clearbody n.
  unfold strlen, sizeof in *. lia.
Qed.

End Arrays.

Lemma strncat_idiom_stays_in_array_witness :
  let cmd := lit "abc" ++ [NUL; x7a; x7a] in
  let cmd' := strncat cmd (lit "defgh")
                (size_sub (size_sub (sizeof cmd) (strlen cmd)) 1) in
  strlen cmd < sizeof cmd
  /\ sizeof cmd < SIZE_MOD
  /\ sizeof cmd' = 6
  /\ strlen cmd' < 6
  /\ cstr cmd' = lit "abcde".
Proof.
  intros cmd cmd'.
  assert (H1 : strlen cmd < sizeof cmd) by now vm_compute.
  assert (H2 : sizeof cmd < SIZE_MOD) by now vm_compute.
  split; [exact H1|]. split; [exact H2|].
  exact (strncat_idiom_stays_in_array cmd (lit "defgh") H1 H2).
Defined.

(** ** Operations that take no string *)

Section Numeric.

Variables (env : Env) (socket : Z) (w : trace).

Lemma assembled_numeric_short o :
  Session.numeric o = true -> Wire.well_formed o ->
  Z.of_nat (length (Wire.assembled o)) <= 510.
Proof.
  destruct o; simpl Session.numeric; intros Hnum Hwf; try discriminate;
    try now vm_compute.
  - unfold Wire.assembled, Wire.ns. rewrite !length_app.
    pose proof (firstn_le_length 127 period_lf).
    change (length (lit "trick")) with 5%nat.
    change (length (lit ".var_cycle(")) with 11%nat.
    change (length (lit ")")) with 1%nat. lia.
  - unfold Wire.assembled, Wire.ns. rewrite !length_app.
    pose proof (firstn_le_length 3 (format_i mode)).
    change (length (lit "trick")) with 5%nat.
    change (length (lit ".var_set_copy_mode(")) with 19%nat.
    change (length (lit ")")) with 1%nat. lia.
  - unfold Wire.assembled, Wire.template. destruct (0 <? validate); now vm_compute.
  - unfold Wire.assembled, Wire.template. destruct (0 <? enabled); now vm_compute.
  - unfold Wire.assembled, Wire.template, Wire.ns. rewrite !length_app.
    pose proof (length_format_i level).
    change (length (lit "trick")) with 5%nat.
    change (length (lit ".var_debug(")) with 11%nat.
    change (length (lit ")")) with 1%nat. lia.
Qed.

Lemma numeric_transmits o :
  Session.numeric o = true -> Wire.well_formed o ->
  Wire.perform o socket env w
  = (status (to_int (os_send env w socket (Wire.assembled o ++ [NEWLINE]) 0)),
     w ++ [EvSend socket (Wire.assembled o ++ [NEWLINE]) 0]).
Proof.
  intros Hnum Hwf. rewrite perform_transmit by assumption.
  pose proof (assembled_numeric_short o Hnum Hwf) as Hlen.
  destruct (transmit_cases env socket w (Wire.assembled o)) as [[Hbig _]|[_ E]];
    [lia | exact E].
Qed.

(** X4: an operation that takes no string (a fixed command, a flag, a
    period, a copy mode or a debug level) never fails on its own: every
    call makes exactly one [send], and the result is -1 exactly when
    that [send] reports an error. *)
Theorem numeric_operation_always_sends o :
  Session.numeric o = true -> Wire.well_formed o ->
  snd (Wire.perform o socket env w)
  = w ++ [EvSend socket (Wire.assembled o ++ [NEWLINE]) 0]
  /\ (fst (Wire.perform o socket env w) = -1
      <-> to_int (os_send env w socket (Wire.assembled o ++ [NEWLINE]) 0) < 0)
  /\ (fst (Wire.perform o socket env w) = 0
      <-> 0 <= to_int (os_send env w socket (Wire.assembled o ++ [NEWLINE]) 0)).
Proof.
  intros Hnum Hwf. rewrite numeric_transmits by assumption. cbn [fst snd].
  split; [reflexivity|].
  destruct (status_cases
              (to_int (os_send env w socket (Wire.assembled o ++ [NEWLINE]) 0)))
    as [[Hneg Hs]|[Hpos Hs]]; rewrite Hs; split; split; intros; lia || reflexivity.
Qed.

End Numeric.

Lemma numeric_operation_always_sends_witness :
  Session.numeric (Wire.SetDebugLevel (-2147483648)) = true
  /\ Wire.well_formed (Wire.SetDebugLevel (-2147483648))
  /\ snd (Wire.perform (Wire.SetDebugLevel (-2147483648)) 3 Mock.refusing [])
     = [EvSend 3 (lit "trick.var_debug(-2147483648)" ++ [NEWLINE]) 0].
Proof.
  assert (Hwf : Wire.well_formed (Wire.SetDebugLevel (-2147483648)))
    by (split; now vm_compute).
  split; [reflexivity|]. split; [exact Hwf|].
  exact (proj1 (numeric_operation_always_sends Mock.refusing 3 []
                  (Wire.SetDebugLevel (-2147483648)) eq_refl Hwf)).
Defined.

(** ** Numbers that reach the wire in full *)

Section Verbatim.

Variables (env : Env) (socket : Z) (w : trace).

Lemma length_udec_upper fuel :
  forall k n,
    (1 <= k)%nat -> 0 <= n < 10 ^ Z.of_nat k -> (length (udec fuel n) <= k)%nat.
Proof.
  induction fuel as [|f IH]; intros k n Hk Hn; cbn [udec]; [simpl; lia|].
  rewrite length_app. change (length [digit (n mod 10)]) with 1%nat.
  destruct (Z.ltb_spec n 10) as [Hsmall|Hbig]; [simpl; lia|].
  destruct k as [|[|k']]; [lia | change (10 ^ Z.of_nat 1) with 10 in Hn; lia |].
  assert (Hdiv : 0 <= n / 10 < 10 ^ Z.of_nat (S k')).
  { rewrite (Nat2Z.inj_succ (S k')), Z.pow_succ_r in Hn by lia.
    split; [apply Z.div_pos; lia | apply Z.div_lt_upper_bound; lia]. }
  specialize (IH (S k') (n / 10) ltac:(lia) Hdiv). lia.
Qed.

Lemma length_udec_lower fuel :
  forall k n,
    (k < fuel)%nat -> 10 ^ Z.of_nat k <= n -> (k + 1 <= length (udec fuel n))%nat.
Proof.
  induction fuel as [|f IH]; intros k n Hk Hn; [lia|]. cbn [udec].
  rewrite length_app. change (length [digit (n mod 10)]) with 1%nat.
  destruct k as [|k']; [lia|].
  rewrite Nat2Z.inj_succ, Z.pow_succ_r in Hn by lia.
  assert (Hpow : 0 < 10 ^ Z.of_nat k') by (apply Z.pow_pos_nonneg; lia).
  destruct (Z.ltb_spec n 10) as [Hsmall|_]; [lia|].
  assert (Hdiv : 10 ^ Z.of_nat k' <= n / 10) by (apply Z.div_le_lower_bound; lia).
  specialize (IH k' (n / 10) ltac:(lia) Hdiv). lia.
Qed.

(** The [%i] text has at most three characters exactly for the values
    from -99 to 999. *)
Lemma format_i_three m : (length (format_i m) <= 3)%nat <-> -99 <= m <= 999.
Proof.
  unfold format_i. destruct (Z.ltb_spec m 0) as [Hneg|Hpos].
  - change (length (x2d :: udec 10 (- m))) with (S (length (udec 10 (- m)))).
    split; intros H.
    + destruct (Z.le_gt_cases (-99) m) as [|Hlow]; [lia|].
      pose proof (length_udec_lower 10 2 (- m) ltac:(lia)
                    ltac:(change (10 ^ Z.of_nat 2) with 100; lia)). lia.
    + pose proof (length_udec_upper 10 2 (- m) ltac:(lia)
                    ltac:(change (10 ^ Z.of_nat 2) with 100; lia)). lia.
  - split; intros H.
    + destruct (Z.le_gt_cases m 999) as [|Hhigh]; [lia|].
      pose proof (length_udec_lower 10 3 m ltac:(lia)
                    ltac:(change (10 ^ Z.of_nat 3) with 1000; lia)). lia.
    + pose proof (length_udec_upper 10 3 m ltac:(lia)
                    ltac:(change (10 ^ Z.of_nat 3) with 1000; lia)). lia.
Qed.

(** A line with a cut text between the same prefix and suffix is the
    full line exactly when nothing was cut. *)
Lemma cut_line_full (prefix text suffix : chars) n :
  prefix ++ firstn n text ++ suffix = prefix ++ text ++ suffix
  <-> (length text <= n)%nat.
Proof.
  split; intros H.
  - apply (f_equal (@length byte)) in H. rewrite !length_app, length_firstn in H. lia.
  - now rewrite firstn_all2.
Qed.

Lemma one_send_same fd (a b : chars) :
  w ++ [EvSend fd (a ++ [NEWLINE]) 0] = w ++ [EvSend fd (b ++ [NEWLINE]) 0] <-> a = b.
Proof.
  split; [|now intros ->]. intros H. apply app_inv_head in H.
  inversion H as [Hline]. now apply app_inv_tail in Hline.
Qed.

(** X5: [set_copy_mode] puts the mode on the wire in full exactly when
    -99 <= mode <= 999, the values whose text fits the three
    characters its array keeps; for every other mode a line is sent
    all the same, with the text cut. *)
Theorem copy_mode_sent_in_full m :
  in_int m ->
  (snd (TVS.set_copy_mode socket m env w)
   = w ++ [EvSend socket (Wire.template (Wire.SetCopyMode m) ++ [NEWLINE]) 0]
   <-> -99 <= m <= 999)
  /\ exists line, snd (TVS.set_copy_mode socket m env w) = w ++ [EvSend socket line 0].
Proof.
  intros Hint.
  pose proof (numeric_transmits env socket w (Wire.SetCopyMode m)
                eq_refl Hint) as Hsend.
  change (Wire.perform (Wire.SetCopyMode m) socket env w)
    with (TVS.set_copy_mode socket m env w) in Hsend.
  rewrite Hsend. cbn [snd]. split; [|eauto].
  rewrite one_send_same. unfold Wire.assembled, Wire.template.
  rewrite (app_assoc Wire.ns), (app_assoc Wire.ns (lit ".var_set_copy_mode(") (format_i m ++ _)).
  rewrite cut_line_full. apply format_i_three.
Qed.

(** X6: [set_cycle] puts the text of the period on the wire in full
    exactly when that text has at most 127 characters; a longer text
    is cut to its first 127 characters and sent all the same. *)
Theorem period_sent_in_full p :
  cstr p = p ->
  (snd (TVS.set_cycle socket p env w)
   = w ++ [EvSend socket (Wire.template (Wire.SetCycle p) ++ [NEWLINE]) 0]
   <-> Z.of_nat (length p) <= 127)
  /\ snd (TVS.set_cycle socket p env w)
     = w ++ [EvSend socket
               (lit "trick.var_cycle(" ++ firstn 127 p ++ lit ")" ++ [NEWLINE]) 0].
Proof.
  intros Hp.
  assert (Hsend : snd (TVS.set_cycle socket p env w)
                  = w ++ [EvSend socket (Wire.assembled (Wire.SetCycle p) ++ [NEWLINE]) 0]).
  { rewrite set_cycle_transmit by now apply nul_free_iff.
    destruct (transmit_cases env socket w (Wire.assembled (Wire.SetCycle p)))
      as [[Hbig _]|[_ E]]; [|now rewrite E].
    unfold Wire.assembled, Wire.ns in Hbig. rewrite !length_app in Hbig.
    pose proof (firstn_le_length 127 p).
    change (length (lit "trick")) with 5%nat in Hbig.
    change (length (lit ".var_cycle(")) with 11%nat in Hbig.
    change (length (lit ")")) with 1%nat in Hbig. lia. }
  rewrite Hsend. split.
  - rewrite one_send_same. unfold Wire.assembled, Wire.template.
    rewrite (app_assoc Wire.ns), (app_assoc Wire.ns (lit ".var_cycle(") (p ++ _)).
    rewrite cut_line_full. lia.
  - unfold Wire.assembled. rewrite <- !app_assoc. reflexivity.
Qed.

End Verbatim.

Lemma copy_mode_sent_in_full_witness :
  in_int (-99)
  /\ snd (TVS.set_copy_mode 3 (-99) Mock.accepting [])
     = [EvSend 3 (lit "trick.var_set_copy_mode(-99)" ++ [NEWLINE]) 0].
Proof.
  assert (Hint : in_int (-99)) by (split; now vm_compute).
  split; [exact Hint|].
  exact (proj2 (proj1 (copy_mode_sent_in_full Mock.accepting 3 [] (-99) Hint))
           ltac:(lia)).
Defined.

Lemma period_sent_in_full_witness :
  cstr (lit "0.500000") = lit "0.500000"
  /\ snd (TVS.set_cycle 3 (lit "0.500000") Mock.accepting [])
     = [EvSend 3 (lit "trick.var_cycle(0.500000)" ++ [NEWLINE]) 0].
Proof.
  assert (Hp : cstr (lit "0.500000") = lit "0.500000") by reflexivity.
  split; [exact Hp|].
  exact (proj2 (proj1 (period_sent_in_full Mock.accepting 3 [] (lit "0.500000") Hp))
           ltac:(now vm_compute)).
Defined.

(** ** When [close] returns *)

Section CloseReturns.

Variables (env : Env) (socket : Z).

Local Notation "'EXIT'" := (EvSend socket Wire.EXIT_LINE 0).

(** More nesting than a call needs changes nothing. *)
Lemma close_depth_more depth :
  forall w r w' n,
    TVS.close depth socket env w = (Some r, w') ->
    TVS.close (depth + n) socket env w = (Some r, w').
Proof.
  induction depth as [|d IH]; intros w r w' n H; [discriminate|].
  change (S d + n)%nat with (S (d + n)). rewrite close_step in *.
  destruct (_ <? 0); [exact H|].
  destruct (TVS.close d socket env (w ++ [EXIT])) as [[inner|] w1] eqn:E;
    [|discriminate].
  now rewrite (IH _ _ _ n E).
Qed.

Lemma close_after_successes k :
  forall w,
    (forall i, (i < k)%nat ->
               0 <= to_int (os_send env (w ++ repeat EXIT i) socket Wire.EXIT_LINE 0)) ->
    to_int (os_send env (w ++ repeat EXIT k) socket Wire.EXIT_LINE 0) < 0 ->
    forall depth,
      (k < depth)%nat ->
      TVS.close depth socket env w
      = (Some (if (k =? 0)%nat then -1 else 0), w ++ repeat EXIT (S k)).
Proof.
  induction k as [|k IH]; intros w Hok Hfail depth Hd;
    (destruct depth as [|d]; [lia|]); rewrite close_step.
  - simpl repeat in Hfail. rewrite app_nil_r in Hfail.
    destruct (Z.ltb_spec (to_int (os_send env w socket Wire.EXIT_LINE 0)) 0);
      [reflexivity|lia].
  - pose proof (Hok 0%nat ltac:(lia)) as H0. simpl repeat in H0.
    rewrite app_nil_r in H0.
    destruct (Z.ltb_spec (to_int (os_send env w socket Wire.EXIT_LINE 0)) 0); [lia|].
    rewrite (IH (w ++ [EXIT])).
    + change (S k =? 0)%nat with false.
      rewrite <- app_assoc. destruct (k =? 0)%nat; reflexivity.
    + intros i Hi. rewrite <- app_assoc. apply (Hok (S i)). lia.
    + rewrite <- app_assoc. exact Hfail.
    + lia.
Qed.

(** X7: [close] returns at the first send that fails.  When the first
    [k] sends of the exit line succeed and the next one fails, [close]
    returns -1 if [k] is 0 and 0 otherwise, having handed the exit line
    to the transport [k + 1] times and never released the descriptor;
    no other result is possible. *)
Theorem close_returns_at_first_failure k w :
  (forall i, (i < k)%nat ->
             0 <= to_int (os_send env (w ++ repeat EXIT i) socket Wire.EXIT_LINE 0)) ->
  to_int (os_send env (w ++ repeat EXIT k) socket Wire.EXIT_LINE 0) < 0 ->
  TVS.close_returns env socket w (if (k =? 0)%nat then -1 else 0)
    (w ++ repeat EXIT (S k))
  /\ (forall r w',
         TVS.close_returns env socket w r w' ->
         r = (if (k =? 0)%nat then -1 else 0) /\ w' = w ++ repeat EXIT (S k))
  /\ teardowns (w ++ repeat EXIT (S k)) = teardowns w.
Proof.
  intros Hok Hfail.
  pose proof (close_after_successes k w Hok Hfail) as Hrun.
  split; [|split].
  - apply (close_depth_returns env socket (S k)). apply Hrun. lia.
  - intros r w' H. apply close_returns_depth in H. destruct H as [d Hd].
    apply (close_depth_more d _ _ _ (S k)) in Hd.
    rewrite Hrun in Hd by lia. inversion Hd. split; reflexivity.
  - apply teardowns_exits.
Qed.

End CloseReturns.

Lemma close_returns_at_first_failure_witness :
  (forall i, (i < 2)%nat ->
             0 <= to_int (os_send (Mock.failing_after 2)
                            ([] ++ repeat (EvSend 3 Wire.EXIT_LINE 0) i) 3
                            Wire.EXIT_LINE 0))
  /\ to_int (os_send (Mock.failing_after 2)
               ([] ++ repeat (EvSend 3 Wire.EXIT_LINE 0) 2) 3 Wire.EXIT_LINE 0) < 0
  /\ TVS.close_returns (Mock.failing_after 2) 3 [] 0
       (repeat (EvSend 3 Wire.EXIT_LINE 0) 3).
Proof.
  assert (Hok : forall i, (i < 2)%nat ->
                  0 <= to_int (os_send (Mock.failing_after 2)
                                 ([] ++ repeat (EvSend 3 Wire.EXIT_LINE 0) i) 3
                                 Wire.EXIT_LINE 0)).
  { intros [|[|i]] Hi; [now vm_compute | now vm_compute | lia]. }
  assert (Hfail : to_int (os_send (Mock.failing_after 2)
                            ([] ++ repeat (EvSend 3 Wire.EXIT_LINE 0) 2) 3
                            Wire.EXIT_LINE 0) < 0) by now vm_compute.
  split; [exact Hok|]. split; [exact Hfail|].
  exact (proj1 (close_returns_at_first_failure (Mock.failing_after 2) 3 2 []
                  Hok Hfail)).
Defined.

(** ** Sequences of calls *)

Section Sequences.

Variables (env : Env) (socket : Z).

(** X8: nothing is buffered or reordered.  A caller that issues
    operations one after the other finds their lines on the wire in the
    order of the calls, each operation adding its own line (or nothing,
    when its text is too long) whatever the earlier calls returned. *)
Theorem commands_arrive_in_order ops :
  Forall Wire.well_formed ops ->
  forall w,
    snd (Session.perform_each ops socket env w)
    = w ++ concat (map (fun o => wire_output socket (Wire.assembled o)) ops)
    /\ length (fst (Session.perform_each ops socket env w)) = length ops.
Proof.
  induction 1 as [|o rest Hwf _ IH]; intros w.
  - simpl. now rewrite app_nil_r.
  - assert (Hstep : Session.perform_each (o :: rest) socket env w
                    = let (r, w1) := Wire.perform o socket env w in
                      let (rs, w2) := Session.perform_each rest socket env w1 in
                      (r :: rs, w2)) by reflexivity.
    rewrite Hstep. cbn [map concat].
    pose proof (transmit_output env socket w (Wire.assembled o)) as Hout.
    rewrite <- perform_transmit in Hout by assumption.
    destruct (Wire.perform o socket env w) as [r w1]. simpl snd in Hout. subst w1.
    destruct (IH (w ++ wire_output socket (Wire.assembled o))) as [Htrace Hlen].
    destruct (Session.perform_each rest socket env
                (w ++ wire_output socket (Wire.assembled o))) as [rs w2].
    cbn [fst snd length] in *. subst w2.
    split; [now rewrite <- app_assoc | now rewrite Hlen].
Qed.

Lemma nul_free_skipn n s : nul_free s -> nul_free (skipn n s).
Proof.
  unfold nul_free. intros H. revert n.
  induction H as [|b r Hb Hr IH]; intros [|n]; simpl; auto.
Qed.

(** X9: the receive stores the bytes of a message and nothing after
    them, no terminator either.  When a second message, not longer
    than the first, is received into the same buffer, the buffer then
    holds the second message followed by the tail of the first, and
    keeps its size. *)
Theorem second_reply_keeps_tail m1 m2 buf lenght flags w :
  os_recv env w socket lenght flags = RecvMessage m1 ->
  os_recv env (w ++ [EvRecv socket lenght flags]) socket lenght flags
  = RecvMessage m2 ->
  (length m2 <= length m1 <= length buf)%nat ->
  Z.of_nat (length m1) <= INT_MAX ->
  Session.receive_twice socket buf lenght flags env w
  = (Z.of_nat (length m1), Z.of_nat (length m2),
     m2 ++ skipn (length m2) m1 ++ skipn (length m1) buf,
     w ++ [EvRecv socket lenght flags; EvRecv socket lenght flags])
  /\ length (m2 ++ skipn (length m2) m1 ++ skipn (length m1) buf) = length buf
  /\ (nul_free m1 -> nul_free m2 ->
      cstr (m2 ++ skipn (length m2) m1 ++ skipn (length m1) buf)
      = m2 ++ skipn (length m2) m1 ++ cstr (skipn (length m1) buf)).
Proof.
  unfold INT_MAX. intros H1 H2 Hlen Hint. split; [|split].
  - unfold Session.receive_twice, bind. rewrite receive_unfold, H1.
    cbn [fst snd]. rewrite receive_unfold, H2. unfold ret. cbn [fst snd recv_ret].
    rewrite !to_int_small by (unfold in_int, INT_MIN, INT_MAX; lia).
    rewrite skipn_app.
    replace (length m2 - length m1)%nat with 0%nat by lia.
    rewrite skipn_O, <- app_assoc. reflexivity.
  - rewrite !length_app, !length_skipn. lia.
  - intros N1 N2. rewrite cstr_app by assumption. f_equal.
    apply cstr_app. now apply nul_free_skipn.
Qed.

End Sequences.

Lemma commands_arrive_in_order_witness :
  Forall Wire.well_formed
    [Wire.SetCopyMode 1; Wire.AddVariable (lit "time"); Wire.Clear]
  /\ snd (Session.perform_each
            [Wire.SetCopyMode 1; Wire.AddVariable (lit "time"); Wire.Clear]
            3 (Mock.failing_after 1) [])
     = [EvSend 3 (lit "trick.var_set_copy_mode(1)" ++ [NEWLINE]) 0;
        EvSend 3 (lit "trick.var_add(" ++ [DQUOTE] ++ lit "time" ++ [DQUOTE]
                    ++ lit ")" ++ [NEWLINE]) 0;
        EvSend 3 (lit "trick.var_clear()" ++ [NEWLINE]) 0].
Proof.
  assert (Hwf : Forall Wire.well_formed
                  [Wire.SetCopyMode 1; Wire.AddVariable (lit "time"); Wire.Clear]).
  { repeat constructor; now vm_compute. }
  split; [exact Hwf|].
  exact (proj1 (commands_arrive_in_order (Mock.failing_after 1) 3 _ Hwf [])).
Defined.

Lemma second_reply_keeps_tail_witness :
  os_recv (Session.replying [lit "0 12.5 7"; lit "0 3"]) [] 3 2000 0
  = RecvMessage (lit "0 12.5 7")
  /\ snd (fst (Session.receive_twice 3 (repeat x00 10) 2000 0
                 (Session.replying [lit "0 12.5 7"; lit "0 3"]) []))
     = lit "0 3" ++ lit "2.5 7" ++ [x00; x00].
Proof.
  assert (H1 : os_recv (Session.replying [lit "0 12.5 7"; lit "0 3"]) [] 3 2000 0
               = RecvMessage (lit "0 12.5 7")) by reflexivity.
  split; [exact H1|].
  rewrite (proj1 (second_reply_keeps_tail
                    (Session.replying [lit "0 12.5 7"; lit "0 3"]) 3
                    (lit "0 12.5 7") (lit "0 3") (repeat x00 10) 2000 0 []
                    H1 eq_refl ltac:(vm_compute; lia) ltac:(now vm_compute))).
  reflexivity.
Defined.

(** ** Arguments are not escaped *)

Section Escaping.

Variables (env : Env) (socket : Z) (w : trace).

(** X10: arguments go to the wire as they are, with no escaping and no
    check of their characters.  A variable name made of [a], a quote, a
    closing parenthesis, a newline and [b] ends the [var_add] line
    right after [a]: the bytes sent are the complete line for [a]
    followed by a further line that starts with [b]. *)
Theorem add_variable_does_not_escape a b :
  nul_free a -> nul_free b ->
  Z.of_nat (length a) + Z.of_nat (length b) <= 490 ->
  snd (TVS.add_variable_to_server socket
         (a ++ [DQUOTE] ++ lit ")" ++ [NEWLINE] ++ b) env w)
  = w ++ [EvSend socket
            ((Wire.template (Wire.AddVariable a) ++ [NEWLINE])
               ++ (b ++ [DQUOTE] ++ lit ")" ++ [NEWLINE])) 0].
Proof.
  intros Na Nb Hlen.
  set (name := a ++ [DQUOTE] ++ lit ")" ++ [NEWLINE] ++ b).
  assert (Nn : nul_free name).
  { subst name. repeat apply nul_free_app; try assumption;
      repeat constructor; discriminate. }
  assert (Hc : cstr name = name) by now apply cstr_nul_free.
  assert (Hs : strlen name = Z.of_nat (length a) + Z.of_nat (length b) + 3).
  { unfold strlen. rewrite Hc. subst name. rewrite !length_app.
    change (length (lit ")")) with 1%nat. simpl length. lia. }
  assert (Hm : Wire.in_memory name)
    by (unfold Wire.in_memory, Wire.STRING_MAX; lia).
  rewrite add_variable_to_server_transmit by exact Hm.
  pose proof (length_template_add name) as Ln.
  destruct (transmit_cases env socket w (Wire.template (Wire.AddVariable name)))
    as [[Hbig _]|[_ E]]; [lia|].
  rewrite E. cbn [snd]. do 3 f_equal. unfold Wire.template, Wire.quoted.
  rewrite Hc, (cstr_nul_free a Na). subst name.
  rewrite <- !app_assoc. reflexivity.
Qed.

End Escaping.

Lemma add_variable_does_not_escape_witness :
  nul_free (lit "time")
  /\ nul_free (lit "trick.exec_freeze() #")
  /\ snd (TVS.add_variable_to_server 3
            (lit "time" ++ [DQUOTE] ++ lit ")" ++ [NEWLINE]
               ++ lit "trick.exec_freeze() #") Mock.accepting [])
     = [EvSend 3
          (lit "trick.var_add(" ++ [DQUOTE] ++ lit "time" ++ [DQUOTE] ++ lit ")"
             ++ [NEWLINE]
             ++ lit "trick.exec_freeze() #" ++ [DQUOTE] ++ lit ")" ++ [NEWLINE]) 0].
Proof.
  assert (Na : nul_free (lit "time")) by (repeat constructor; discriminate).
  assert (Nb : nul_free (lit "trick.exec_freeze() #"))
    by (repeat constructor; discriminate).
  split; [exact Na|]. split; [exact Nb|].
  exact (add_variable_does_not_escape Mock.accepting 3 [] _ _ Na Nb
           ltac:(now vm_compute)).
Defined.

(** ** The count the raw send returns *)

Section RawSendCount.

Variables (env : Env) (socket : Z) (w : trace).

(** X11: on a transport whose [send] answers -1 or a count of at most
    the bytes it was given, the raw send returns that answer unchanged,
    a value between -1 and 511; the count includes the newline, so a
    command of [n] characters written in full returns [n + 1]. *)
Theorem raw_send_count text :
  strlen text <= 510 ->
  -1 <= os_send env w socket (cstr text ++ [NEWLINE]) 0
     <= Z.of_nat (length (cstr text ++ [NEWLINE])) ->
  let r := fst (TVS.send_command_to_variable_server socket text env w) in
  r = os_send env w socket (cstr text ++ [NEWLINE]) 0
  /\ -1 <= r <= 511
  /\ (os_send env w socket (cstr text ++ [NEWLINE]) 0
      = Z.of_nat (length (cstr text ++ [NEWLINE])) ->
      r = strlen text + 1).
Proof.
  intros Hlen Hsend r. subst r. rewrite send_command_accept by assumption.
  cbn [fst]. rewrite length_app in *. change (length [NEWLINE]) with 1%nat in *.
  unfold strlen in *.
  rewrite to_int_small by (unfold in_int, INT_MIN, INT_MAX; lia).
  split; [reflexivity|]. split; [lia|]. intros ->. lia.
Qed.

End RawSendCount.

Lemma raw_send_count_witness :
  strlen (lit "trick.var_send()") <= 510
  /\ fst (TVS.send_command_to_variable_server 3 (lit "trick.var_send()")
            Mock.accepting []) = strlen (lit "trick.var_send()") + 1.
Proof.
  assert (Hlen : strlen (lit "trick.var_send()") <= 510) by now vm_compute.
  split; [exact Hlen|].
  exact (proj2 (proj2 (raw_send_count Mock.accepting 3 [] (lit "trick.var_send()")
                         Hlen ltac:(split; now vm_compute))) eq_refl).
Defined.
